(** * The RPC session manager of overlayed ([src/rpc/manager.ts])

    A shallow embedding of [TokenStore] and [SocketManager]: the message
    handler [onMessage] and the private methods it calls are state-passing
    functions over a [World] that holds the manager object, the browser's
    local storage, the number of identifiers drawn from [uuid.v4] so far and
    the ordered trace of everything the handler did to the outside (frames
    written to the socket, HTTP requests, storage writes, calls of the shared
    store's actions, console output). *)

From stdpp Require Import base strings list gmap.
From Stdlib Require Import ZArith.

Set Default Proof Using "Type".
Set Warnings "-register-all".
Local Open Scope string_scope.

(** ** Values parsed from JSON

    [payload] is typed [any] in the source, so it is an arbitrary value
    produced by [JSON.parse], with [undefined] added for absent properties. *)

Inductive JSValue :=
| JUndefined
| JNull
| JBool (b : bool)
| JNum (n : Z)
| JStr (s : string)
| JArr (items : list JSValue)
| JObj (fields : list (string * JSValue)).

(** Uncaught failures of the handler. *)
Inductive Error :=
| TypeError     (* property read on undefined or null *)
| SyntaxError   (* JSON.parse on a malformed frame *)
| FetchError    (* the HTTP request of the token exchange was rejected *)
| ConnectError. (* WebSocket.connect was rejected *)

Inductive Result (A : Type) :=
| Ok (a : A)
| Throw (e : Error).
Arguments Ok {A} a.
Arguments Throw {A} e.

Definition is_ok {A} (r : Result A) : bool :=
  match r with Ok _ => true | Throw _ => false end.

Fixpoint lookup_field (k : string) (fields : list (string * JSValue)) : JSValue :=
  match fields with
  | [] => JUndefined
  | (k', v) :: rest => if String.eqb k k' then v else lookup_field k rest
  end.

(** [v.k] for the property names the handler reads (evt, cmd, data, code, id,
    voice_states, user, user_id, channel_id): none of them exists on a
    primitive or on an array, and reading any property of undefined or null
    throws. *)
Definition prop (v : JSValue) (k : string) : Result JSValue :=
  match v with
  | JUndefined | JNull => Throw TypeError
  | JObj fields => Ok (lookup_field k fields)
  | _ => Ok JUndefined
  end.

(** [v?.k] *)
Definition prop_opt (v : JSValue) (k : string) : Result JSValue :=
  match v with
  | JUndefined | JNull => Ok JUndefined
  | _ => prop v k
  end.

(** [v === s] for a string constant [s]. *)
Definition strict_eq (v : JSValue) (s : string) : bool :=
  match v with
  | JStr s' => String.eqb s' s
  | _ => false
  end.

(** JavaScript truthiness, as tested by [if (v)]. *)
Definition truthy (v : JSValue) : bool :=
  match v with
  | JUndefined | JNull => false
  | JBool b => b
  | JNum n => negb (Z.eqb n 0)
  | JStr s => negb (String.eqb s "")
  | JArr _ | JObj _ => true
  end.

(** Truthiness of [string | null | undefined]. *)
Definition truthy_token (t : option string) : bool :=
  match t with
  | Some s => negb (String.eqb s "")
  | None => false
  end.

(** ** The command and event vocabularies *)

Module RPCCommand.
(** Modelled from the spec: the enum of [./command] is not under src/;
    these are the members [manager.ts] names, and each member's string is
    its name, as in the spec's dispatch table. *)
Inductive t :=
| AUTHORIZE
| AUTHENTICATE
| GET_SELECTED_VOICE_CHANNEL
| GET_CHANNEL
| SUBSCRIBE
| UNSUBSCRIBE.

Definition to_string (c : t) : string :=
  match c with
  | AUTHORIZE => "AUTHORIZE"
  | AUTHENTICATE => "AUTHENTICATE"
  | GET_SELECTED_VOICE_CHANNEL => "GET_SELECTED_VOICE_CHANNEL"
  | GET_CHANNEL => "GET_CHANNEL"
  | SUBSCRIBE => "SUBSCRIBE"
  | UNSUBSCRIBE => "UNSUBSCRIBE"
  end.

Definition eqb (a b : t) : bool :=
  match a, b with
  | AUTHORIZE, AUTHORIZE
  | AUTHENTICATE, AUTHENTICATE
  | GET_SELECTED_VOICE_CHANNEL, GET_SELECTED_VOICE_CHANNEL
  | GET_CHANNEL, GET_CHANNEL
  | SUBSCRIBE, SUBSCRIBE
  | UNSUBSCRIBE, UNSUBSCRIBE => true
  | _, _ => false
  end.
End RPCCommand.

Module RPCEvent.
(** Modelled from the spec: the enum of [./event] is not under src/;
    these are the members [manager.ts] names, and each member's string is
    its name, as in the spec's example
    [{evt:"VOICE_CHANNEL_SELECT", data:{channel_id:"42"}}]. *)
Inductive t :=
| READY
| SPEAKING_START
| SPEAKING_STOP
| VOICE_STATE_CREATE
| VOICE_STATE_DELETE
| VOICE_CHANNEL_SELECT.

Definition to_string (e : t) : string :=
  match e with
  | READY => "READY"
  | SPEAKING_START => "SPEAKING_START"
  | SPEAKING_STOP => "SPEAKING_STOP"
  | VOICE_STATE_CREATE => "VOICE_STATE_CREATE"
  | VOICE_STATE_DELETE => "VOICE_STATE_DELETE"
  | VOICE_CHANNEL_SELECT => "VOICE_CHANNEL_SELECT"
  end.
End RPCEvent.

Coercion RPCCommand.to_string : RPCCommand.t >-> string.
Coercion RPCEvent.to_string : RPCEvent.t >-> string.

(** Collection of events that are needed to sub to for voice states. *)
Definition SUBSCRIBABLE_EVENTS : list RPCEvent.t :=
  [ RPCEvent.SPEAKING_START;
    RPCEvent.SPEAKING_STOP;
    RPCEvent.VOICE_STATE_CREATE;
    RPCEvent.VOICE_STATE_DELETE;
    RPCEvent.VOICE_STATE_DELETE ].

Definition STREAM_KIT_APP_ID : string := "207646673902501888".
Definition WEBSOCKET_URL : string := "ws://127.0.0.1:6463".
Definition STREAMKIT_URL : string := "https://streamkit.discord.com".

(** ** Payloads, frames and collaborators *)

Record DiscordPayload := mkPayload {
  cmd : option RPCCommand.t;
  args : option JSValue;
  evt : option RPCEvent.t;
  nonce : option string }.

(** [{...payload, nonce: n}] *)
Definition with_nonce (n : string) (payload : DiscordPayload) : DiscordPayload :=
  {| cmd := cmd payload; args := args payload; evt := evt payload; nonce := Some n |}.

Record TokenResponse := { access_token : string }.

Record HttpRequest := {
  url : string;
  method : string;
  body : JSValue }.

(** A frame handed to the listener; only [Text] frames carry a payload. *)
Inductive Message :=
| Text (data : string)
| Binary (data : list Z)
| Ping (data : list Z)
| Pong (data : list Z)
| Close.

(** The actions of the shared store ([AppActions] of [../store], which is not
    under src/): the store is an external object, and a mutation of it is the
    call the manager makes. *)
Inductive StoreCall :=
| setUsers (users : JSValue)
| setCurrentChannel (channelId : JSValue)
| setMe (user : JSValue)
| setTalking (id : JSValue) (talking : bool)
| removeUser (id : JSValue)
| addUser (state : JSValue).

(** Handle on the shared store, as returned by [appStore.getState()]. *)
Inductive AppStore := appStore_getState.

Record WebSocket := { connectionUrl : string; origin : string }.

Module TokenStore.
(** The wrapper's [store] field is [window.localStorage] itself, which
    lives in the [World]. *)
Record t := { key : string }.
Definition new : t := {| key := "discord_access_token" |}.
End TokenStore.

(** What the handler does to the outside, in order. *)
Inductive Effect :=
| SocketSend (frame : DiscordPayload)
| HttpFetch (req : HttpRequest)
| StorageSetItem (k v : string)
| StoreAction (call : StoreCall)
| ConsoleLog (v : JSValue).

Record SocketManager := mkSocketManager {
  socket : option WebSocket;
  currentChannelId : JSValue;
  store : option AppStore;
  tokenStore : option TokenStore.t }.

Record World := mkWorld {
  this : SocketManager;
  localStorage : gmap string string;
  uuid_calls : nat;
  trace : list Effect }.

(** What the program cannot decide: the JSON parser ([None]: the text is
    malformed), the identifier generator (its [n]-th draw), the token endpoint
    ([None]: the request is rejected; a response is taken at its declared type
    [TokenResponse]) and the local peer ([None]: the connection is refused). *)
Record Env := {
  JSON_parse : string → option JSValue;
  uuid_v4 : nat → string;
  fetch : HttpRequest → option TokenResponse;
  WebSocket_connect : string → string → option WebSocket }.

(** ** Primitive interactions *)

Inductive Action :=
| ASend (payload : DiscordPayload)  (* socket.send(JSON.stringify({...payload, nonce: uuid.v4()})) *)
| AUuid                             (* a uuid.v4() whose value goes into a payload literal *)
| ASetItem (k v : string)           (* localStorage.setItem(k, v) *)
| AFetch (req : HttpRequest)        (* fetch(url, {method, body}) *)
| AStore (call : StoreCall)         (* this.store.<action>(...) *)
| ALog (v : JSValue).               (* console.log(v) *)

Definition emit (e : Effect) (w : World) : World :=
  {| this := this w; localStorage := localStorage w;
     uuid_calls := uuid_calls w; trace := trace w ++ [e] |}.

Definition tick (w : World) : World :=
  {| this := this w; localStorage := localStorage w;
     uuid_calls := S (uuid_calls w); trace := trace w |}.

Definition set_item (k v : string) (w : World) : World :=
  {| this := this w; localStorage := <[k := v]> (localStorage w);
     uuid_calls := uuid_calls w; trace := trace w |}.

Definition apply_action (env : Env) (a : Action) (w : World) : World :=
  match a with
  | ASend payload =>
      emit (SocketSend (with_nonce (uuid_v4 env (uuid_calls w)) payload)) (tick w)
  | AUuid => tick w
  | ASetItem k v => emit (StorageSetItem k v) (set_item k v w)
  | AFetch req => emit (HttpFetch req) w
  | AStore call => emit (StoreAction call) w
  | ALog v => emit (ConsoleLog v) w
  end.

(** What one interaction appends to the trace, and how many identifiers it
    draws. *)
Definition effect_of (env : Env) (a : Action) (w : World) : list Effect :=
  match a with
  | ASend payload => [SocketSend (with_nonce (uuid_v4 env (uuid_calls w)) payload)]
  | AUuid => []
  | ASetItem k v => [StorageSetItem k v]
  | AFetch req => [HttpFetch req]
  | AStore call => [StoreAction call]
  | ALog v => [ConsoleLog v]
  end.

Definition draws (a : Action) : nat :=
  match a with
  | ASend _ | AUuid => 1
  | _ => 0
  end.

(** ** The monad of the handler: state passing with uncaught exceptions *)

Definition M (A : Type) : Type := World → Result A * World.

Definition ret {A} (a : A) : M A := λ w, (Ok a, w).

Definition throw {A} (e : Error) : M A := λ w, (Throw e, w).

Definition bind {A B} (m : M A) (k : A → M B) : M B :=
  λ w, match m w with
       | (Ok a, w') => k a w'
       | (Throw e, w') => (Throw e, w')
       end.

Definition lift {A} (r : Result A) : M A := λ w, (r, w).

Definition get_this : M SocketManager := λ w, (Ok (this w), w).

Declare Scope js_scope.
Delimit Scope js_scope with js.
Notation "'let*' x ':=' m 'in' k" := (bind m (λ x, k))
  (at level 10, x name, m at level 100, k at level 200) : js_scope.
Notation "m >> k" := (bind m (λ _, k))
  (at level 100, k at level 200, right associativity) : js_scope.
Notation "v .[ k ]" := (lift (prop v k)) (at level 1, format "v .[ k ]") : js_scope.
Notation "v ?.[ k ]" := (lift (prop_opt v k)) (at level 1, format "v ?.[ k ]") : js_scope.
Notation "v === s" := (strict_eq v s) (at level 70) : js_scope.
Local Open Scope js_scope.

(** [xs.map(f)] with the resulting array dropped. *)
Fixpoint forEach {A} (f : A → M unit) (xs : list A) : M unit :=
  match xs with
  | [] => ret tt
  | x :: rest => f x >> forEach f rest
  end.

Section Manager.
Variable env : Env.

Definition perform (a : Action) : M unit := λ w, (Ok tt, apply_action env a w).

(** [uuid.v4()] *)
Definition uuid_v4_call : M string :=
  λ w, (Ok (uuid_v4 env (uuid_calls w)), apply_action env AUuid w).

(** [this.tokenStore?.accessToken] *)
Definition accessToken : M (option string) :=
  λ w, match tokenStore (this w) with
       | Some ts => (Ok (localStorage w !! TokenStore.key ts), w)
       | None => (Ok None, w)
       end.

(** [this.tokenStore?.setAccessToken(token)] *)
Definition setAccessToken (token : string) : M unit :=
  let* this := get_this in
  match tokenStore this with
  | Some ts => perform (ASetItem (TokenStore.key ts) token)
  | None => ret tt
  end.

(** [this.store?.<action>(arg)]: the argument is not evaluated when the
    store is null. *)
Definition store_call (arg : M JSValue) (action : JSValue → StoreCall) : M unit :=
  let* this := get_this in
  match store this with
  | Some _ => let* v := arg in perform (AStore (action v))
  | None => ret tt
  end.

(** Send a message to discord. *)
Definition send (payload : DiscordPayload) : M unit :=
  let* this := get_this in
  match socket this with
  | Some _ => perform (ASend payload)
  | None => ret tt
  end.

(** Authenticate with discord by having the user approve the app. *)
Definition authenticate : M unit :=
  send {| args := Some (JObj [("client_id", JStr STREAM_KIT_APP_ID);
                              ("scopes", JArr [JStr "rpc"])]);
          cmd := Some RPCCommand.AUTHORIZE;
          evt := None; nonce := None |}.

Definition login (accessToken : string) : M unit :=
  send {| cmd := Some RPCCommand.AUTHENTICATE;
          args := Some (JObj [("access_token", JStr accessToken)]);
          evt := None; nonce := None |}.

Definition requestUserChannel : M unit :=
  send {| cmd := Some RPCCommand.GET_SELECTED_VOICE_CHANNEL;
          args := None; evt := None; nonce := None |}.

(** Sub/unsub to the channel events of [SUBSCRIBABLE_EVENTS]. *)
Definition channelEvents (cmd : RPCCommand.t) (channelId : JSValue) : M unit :=
  forEach (λ eventName,
             let* n := uuid_v4_call in
             send {| cmd := Some cmd;
                     args := Some (JObj [("channel_id", channelId)]);
                     evt := Some eventName;
                     nonce := Some n |})
          SUBSCRIBABLE_EVENTS.

Definition token_request (code : JSValue) : HttpRequest :=
  {| url := STREAMKIT_URL ++ "/overlay/token";
     method := "POST";
     body := JObj [("code", code)] |}.

(** [await fetch<TokenResponse>(...)]; the handler is taken to run to
    completion across the await. *)
Definition fetch_token (req : HttpRequest) : M TokenResponse :=
  perform (AFetch req) >>
  match fetch env req with
  | Some res => ret res
  | None => throw FetchError
  end.

(** *** The branches of [onMessage], in source order *)

(* lines 107-114 *)
Definition on_READY (payload : JSValue) : M unit :=
  let* e := payload.["evt"] in
  if e === RPCEvent.READY then
    let* acessToken := accessToken in
    if truthy_token acessToken then login (default "" acessToken)
    else authenticate
  else ret tt.

(* lines 117-129 *)
Definition on_AUTHORIZE (payload : JSValue) : M unit :=
  let* c := payload.["cmd"] in
  if c === RPCCommand.AUTHORIZE then
    let* data := payload.["data"] in
    let* code := data.["code"] in
    let* res := fetch_token (token_request code) in
    setAccessToken (access_token res) >>
    login (access_token res)
  else ret tt.

(* lines 132-140 *)
Definition on_GET_SELECTED_VOICE_CHANNEL (payload : JSValue) : M unit :=
  let* c := payload.["cmd"] in
  if c === RPCCommand.GET_SELECTED_VOICE_CHANNEL then
    (let* data := payload.["data"] in
     let* id := data.["id"] in
     channelEvents RPCCommand.SUBSCRIBE id) >>
    store_call (let* data := payload.["data"] in data.["voice_states"]) setUsers >>
    store_call (let* data := payload.["data"] in data.["id"]) setCurrentChannel
  else ret tt.

(* lines 143-154 *)
Definition on_AUTHENTICATE (payload : JSValue) : M unit :=
  let* c := payload?.["cmd"] in
  if c === RPCCommand.AUTHENTICATE then
    requestUserChannel >>
    send {| cmd := Some RPCCommand.SUBSCRIBE; args := None;
            evt := Some RPCEvent.VOICE_CHANNEL_SELECT; nonce := None |} >>
    store_call (let* data := payload.["data"] in data.["user"]) setMe
  else ret tt.

(* lines 156-162 *)
Definition on_SPEAKING (payload : JSValue) : M unit :=
  let* e := payload.["evt"] in
  if (e === RPCEvent.SPEAKING_START) || (e === RPCEvent.SPEAKING_STOP) then
    let isSpeaking := negb (e === RPCEvent.SPEAKING_START) in
    store_call (let* data := payload.["data"] in data.["user_id"])
               (λ id, setTalking id (negb isSpeaking))
  else ret tt.

(* lines 164-166 *)
Definition on_VOICE_STATE_DELETE (payload : JSValue) : M unit :=
  let* e := payload.["evt"] in
  if e === RPCEvent.VOICE_STATE_DELETE then
    store_call (let* data := payload.["data"] in
                let* user := data.["user"] in
                user.["id"]) removeUser
  else ret tt.

(* lines 168-170 *)
Definition on_VOICE_STATE_CREATE (payload : JSValue) : M unit :=
  let* e := payload.["evt"] in
  if e === RPCEvent.VOICE_STATE_CREATE then
    store_call (payload.["data"]) addUser
  else ret tt.

(* lines 173-175 *)
Definition on_GET_CHANNEL (payload : JSValue) : M unit :=
  let* c := payload.["cmd"] in
  if c === RPCCommand.GET_CHANNEL then requestUserChannel else ret tt.

(* lines 178-191 *)
Definition on_VOICE_CHANNEL_SELECT (payload : JSValue) : M unit :=
  let* e := payload.["evt"] in
  if e === RPCEvent.VOICE_CHANNEL_SELECT then
    requestUserChannel >>
    store_call (let* data := payload.["data"] in data.["channel_id"]) setCurrentChannel >>
    let* data := payload.["data"] in
    let* channel_id := data?.["channel_id"] in
    if truthy channel_id then
      let* data := payload.["data"] in
      let* channel_id := data.["channel_id"] in
      send {| cmd := Some RPCCommand.GET_CHANNEL;
              args := Some (JObj [("channel_id", channel_id)]);
              evt := None; nonce := None |}
    else ret tt
  else ret tt.

(* lines 193-195: [[SUBSCRIBE, AUTHENTICATE].includes(payload.cmd)] *)
Definition includes_cmd (c : JSValue) : bool :=
  (c === RPCCommand.SUBSCRIBE) || (c === RPCCommand.AUTHENTICATE).

Definition on_log (payload : JSValue) : M unit :=
  let* c := payload.["cmd"] in
  if negb (includes_cmd c) then perform (ALog payload) else ret tt.

(** Lines 104-195: everything [onMessage] does with a parsed payload. *)
Definition dispatch (payload : JSValue) : M unit :=
  on_READY payload >>
  on_AUTHORIZE payload >>
  on_GET_SELECTED_VOICE_CHANNEL payload >>
  on_AUTHENTICATE payload >>
  on_SPEAKING payload >>
  on_VOICE_STATE_DELETE payload >>
  on_VOICE_STATE_CREATE payload >>
  on_GET_CHANNEL payload >>
  on_VOICE_CHANNEL_SELECT payload >>
  on_log payload.

(** Message listener when we get message from discord. *)
Definition onMessage (event : Message) : M unit :=
  match event with
  | Text data =>
      match JSON_parse env data with
      | Some payload => dispatch payload
      | None => throw SyntaxError
      end
  | _ => ret tt
  end.

(** Setup the websocket connection and listen for messages. *)
Definition init : M unit :=
  λ w,
    let this1 := {| socket := socket (this w);
                    currentChannelId := currentChannelId (this w);
                    store := Some appStore_getState;
                    tokenStore := Some TokenStore.new |} in
    let w1 := {| this := this1; localStorage := localStorage w;
                 uuid_calls := uuid_calls w; trace := trace w |} in
    match WebSocket_connect env
            (WEBSOCKET_URL ++ "/?v=1&client_id=" ++ STREAM_KIT_APP_ID)
            STREAMKIT_URL with
    | Some ws =>
        (Ok tt,
         {| this := {| socket := Some ws;
                       currentChannelId := currentChannelId this1;
                       store := store this1;
                       tokenStore := tokenStore this1 |};
            localStorage := localStorage w1;
            uuid_calls := uuid_calls w1; trace := trace w1 |})
    | None => (Throw ConnectError, w1)
    end.
End Manager.

(** [new SocketManager()] *)
Definition new_SocketManager : SocketManager :=
  {| socket := None; currentChannelId := JNull; store := None; tokenStore := None |}.

(** ** Observing a trace *)

(** The frames of command [c] written to the socket. *)
Definition sends_of (c : RPCCommand.t) (tr : list Effect) : list DiscordPayload :=
  omap (λ e, match e with
             | SocketSend p =>
                 match cmd p with
                 | Some c' => if RPCCommand.eqb c c' then Some p else None
                 | None => None
                 end
             | _ => None
             end) tr.

Definition all_sends (tr : list Effect) : list DiscordPayload :=
  omap (λ e, match e with SocketSend p => Some p | _ => None end) tr.

Definition store_calls (tr : list Effect) : list StoreCall :=
  omap (λ e, match e with StoreAction a => Some a | _ => None end) tr.

Definition fetches (tr : list Effect) : list HttpRequest :=
  omap (λ e, match e with HttpFetch r => Some r | _ => None end) tr.

Definition storage_writes (tr : list Effect) : list (string * string) :=
  omap (λ e, match e with StorageSetItem k v => Some (k, v) | _ => None end) tr.

Definition console_logs (tr : list Effect) : list JSValue :=
  omap (λ e, match e with ConsoleLog v => Some v | _ => None end) tr.

(** ** Footprints: which kinds of interaction a piece of code may perform *)

Inductive Kind :=
| KSend (c : option RPCCommand.t)
| KUuid
| KSetItem
| KFetch
| KStore
| KLog.

Definition kind_of (a : Action) : Kind :=
  match a with
  | ASend p => KSend (cmd p)
  | AUuid => KUuid
  | ASetItem _ _ => KSetItem
  | AFetch _ => KFetch
  | AStore _ => KStore
  | ALog _ => KLog
  end.

Definition effect_kind (e : Effect) : Kind :=
  match e with
  | SocketSend p => KSend (cmd p)
  | HttpFetch _ => KFetch
  | StorageSetItem _ _ => KSetItem
  | StoreAction _ => KStore
  | ConsoleLog _ => KLog
  end.

Definition Footprint := Kind → bool.

Definition fp_le (f g : Footprint) : Prop := ∀ k, f k = true → g k = true.
Infix "⊑" := fp_le (at level 70).

Definition fp_all : Footprint := λ _, true.

Definition fp_READY : Footprint := λ k,
  match k with
  | KSend (Some RPCCommand.AUTHENTICATE) | KSend (Some RPCCommand.AUTHORIZE) => true
  | _ => false
  end.

Definition fp_AUTHORIZE : Footprint := λ k,
  match k with
  | KFetch | KSetItem | KSend (Some RPCCommand.AUTHENTICATE) => true
  | _ => false
  end.

Definition fp_GET_SELECTED_VOICE_CHANNEL : Footprint := λ k,
  match k with
  | KUuid | KSend (Some RPCCommand.SUBSCRIBE) | KStore => true
  | _ => false
  end.

Definition fp_AUTHENTICATE : Footprint := λ k,
  match k with
  | KSend (Some RPCCommand.GET_SELECTED_VOICE_CHANNEL)
  | KSend (Some RPCCommand.SUBSCRIBE) | KStore => true
  | _ => false
  end.

Definition fp_store : Footprint := λ k,
  match k with KStore => true | _ => false end.

Definition fp_GET_CHANNEL : Footprint := λ k,
  match k with
  | KSend (Some RPCCommand.GET_SELECTED_VOICE_CHANNEL) => true
  | _ => false
  end.

Definition fp_VOICE_CHANNEL_SELECT : Footprint := λ k,
  match k with
  | KSend (Some RPCCommand.GET_SELECTED_VOICE_CHANNEL)
  | KSend (Some RPCCommand.GET_CHANNEL) | KStore => true
  | _ => false
  end.

Definition fp_log : Footprint := λ k,
  match k with KLog => true | _ => false end.

(** ** Runs of the session *)

Inductive Op :=
| OpInit
| OpOnMessage (event : Message)
| OpChannelEvents (cmd : RPCCommand.t) (channelId : JSValue).

Definition exec (env : Env) (op : Op) : M unit :=
  match op with
  | OpInit => init env
  | OpOnMessage event => onMessage env event
  | OpChannelEvents c channelId => channelEvents env c channelId
  end.

(** An uncaught failure ends the handling of one frame, not the session. *)
Definition run (env : Env) (ops : list Op) (w : World) : World :=
  fold_left (λ w op, (exec env op w).2) ops w.

Definition new_World : World :=
  {| this := new_SocketManager; localStorage := ∅; uuid_calls := 0; trace := [] |}.

(** The nonces on the wire. *)
Definition nonces (tr : list Effect) : list (option string) :=
  nonce <$> all_sends tr.

(** The session as [init] leaves it when the connection succeeds. *)
Definition initialised (w : World) : bool :=
  match socket (this w), store (this w), tokenStore (this w) with
  | Some _, Some _, Some ts => String.eqb (TokenStore.key ts) "discord_access_token"
  | _, _, _ => false
  end.

(** What [this.tokenStore?.accessToken] reads. *)
Definition cached_token (w : World) : option string :=
  match tokenStore (this w) with
  | Some ts => localStorage w !! TokenStore.key ts
  | None => None
  end.

(** ** The frames the manager writes, with the nonce [send] attaches *)

Definition frame_AUTHORIZE (n : string) : DiscordPayload :=
  {| cmd := Some RPCCommand.AUTHORIZE;
     args := Some (JObj [("client_id", JStr STREAM_KIT_APP_ID);
                         ("scopes", JArr [JStr "rpc"])]);
     evt := None; nonce := Some n |}.

Definition frame_AUTHENTICATE (token n : string) : DiscordPayload :=
  {| cmd := Some RPCCommand.AUTHENTICATE;
     args := Some (JObj [("access_token", JStr token)]);
     evt := None; nonce := Some n |}.

Definition frame_GET_SELECTED_VOICE_CHANNEL (n : string) : DiscordPayload :=
  {| cmd := Some RPCCommand.GET_SELECTED_VOICE_CHANNEL;
     args := None; evt := None; nonce := Some n |}.

Definition frame_SUBSCRIBE_VOICE_CHANNEL_SELECT (n : string) : DiscordPayload :=
  {| cmd := Some RPCCommand.SUBSCRIBE; args := None;
     evt := Some RPCEvent.VOICE_CHANNEL_SELECT; nonce := Some n |}.

Definition frame_GET_CHANNEL (channel_id : JSValue) (n : string) : DiscordPayload :=
  {| cmd := Some RPCCommand.GET_CHANNEL;
     args := Some (JObj [("channel_id", channel_id)]);
     evt := None; nonce := Some n |}.

Definition frame_channel_event (c : RPCCommand.t) (channelId : JSValue)
    (e : RPCEvent.t) (n : string) : DiscordPayload :=
  {| cmd := Some c;
     args := Some (JObj [("channel_id", channelId)]);
     evt := Some e; nonce := Some n |}.

(** ** Step relation over the primitive interactions *)

Inductive steps (env : Env) (fp : Footprint) : World → World → Prop :=
| steps_refl w : steps env fp w w
| steps_step a w w' :
    fp (kind_of a) = true →
    steps env fp (apply_action env a w) w' →
    steps env fp w w'.

(** [m] only acts on the world through interactions within [fp]. *)
Definition runs {A} (env : Env) (fp : Footprint) (m : M A) : Prop :=
  ∀ w, steps env fp w (m w).2.

(** ** A sample environment *)

Fixpoint tally (n : nat) : string :=
  match n with
  | 0 => ""
  | S n => String.append "I" (tally n)
  end.

Definition sample_frames : list (string * JSValue) :=
  [ ("ready", JObj [("evt", JStr "READY")]);
    ("ready+authorize",
     JObj [("cmd", JStr "AUTHORIZE"); ("evt", JStr "READY");
           ("data", JObj [("code", JStr "c0de")])]);
    ("authorize",
     JObj [("cmd", JStr "AUTHORIZE"); ("data", JObj [("code", JStr "c0de")])]);
    ("selected",
     JObj [("cmd", JStr "GET_SELECTED_VOICE_CHANNEL");
           ("data", JObj [("id", JStr "42");
                          ("voice_states", JArr [JObj [("nick", JStr "ann")]])])]);
    ("authenticate",
     JObj [("cmd", JStr "AUTHENTICATE");
           ("data", JObj [("user", JObj [("id", JStr "7")])])]);
    ("authenticate+select",
     JObj [("cmd", JStr "AUTHENTICATE"); ("evt", JStr "VOICE_CHANNEL_SELECT");
           ("data", JObj [("user", JObj [("id", JStr "7")]);
                          ("channel_id", JStr "42")])]);
    ("speaking_start",
     JObj [("evt", JStr "SPEAKING_START"); ("data", JObj [("user_id", JStr "7")])]);
    ("speaking_stop",
     JObj [("evt", JStr "SPEAKING_STOP"); ("data", JObj [("user_id", JStr "7")])]);
    ("authorize+speaking_start",
     JObj [("cmd", JStr "AUTHORIZE"); ("evt", JStr "SPEAKING_START");
           ("data", JObj [("code", JStr "stale"); ("user_id", JStr "7")])]);
    ("select",
     JObj [("evt", JStr "VOICE_CHANNEL_SELECT");
           ("data", JObj [("channel_id", JStr "42")])]);
    ("select_none",
     JObj [("evt", JStr "VOICE_CHANNEL_SELECT");
           ("data", JObj [("channel_id", JNull)])]);
    ("channel+select",
     JObj [("cmd", JStr "GET_CHANNEL"); ("evt", JStr "VOICE_CHANNEL_SELECT");
           ("data", JObj [("channel_id", JStr "42")])]) ].

Fixpoint assoc {A} (k : string) (l : list (string * A)) : option A :=
  match l with
  | [] => None
  | (k', v) :: rest => if String.eqb k k' then Some v else assoc k rest
  end.

(** The token endpoint of the sample answers for one code only; the request
    fails for every other. *)
Definition sample_fetch (req : HttpRequest) : option TokenResponse :=
  match body req with
  | JObj [(_, JStr code)] =>
      if String.eqb code "c0de" then Some {| access_token := "tok" |} else None
  | _ => None
  end.

Definition sample_env : Env :=
  {| JSON_parse := λ text, assoc text sample_frames;
     uuid_v4 := tally;
     fetch := sample_fetch;
     WebSocket_connect := λ u o, Some {| connectionUrl := u; origin := o |} |}.

(** The session right after [init], without and with a cached token. *)
Definition sample_world : World := run sample_env [OpInit] new_World.

Definition sample_world_token (t : string) : World :=
  set_item "discord_access_token" t sample_world.

(** ** Footprints of the rest of the handler, used to frame a branch *)

Definition fp_no_auth : Footprint := λ k,
  match k with
  | KSend (Some RPCCommand.AUTHENTICATE) | KSend (Some RPCCommand.AUTHORIZE) => false
  | _ => true
  end.

Definition fp_no_subscribe : Footprint := λ k,
  match k with
  | KSend (Some RPCCommand.SUBSCRIBE) => false
  | _ => true
  end.

Definition fp_after_exchange : Footprint := λ k,
  match k with
  | KSend (Some RPCCommand.AUTHENTICATE) | KFetch | KSetItem => false
  | _ => true
  end.

Definition fp_store_log : Footprint := λ k,
  match k with KStore | KLog => true | _ => false end.

Definition fp_no_log : Footprint := λ k,
  match k with KLog => false | _ => true end.

Definition fp_no_GET_CHANNEL : Footprint := λ k,
  match k with
  | KSend (Some RPCCommand.GET_CHANNEL) => false
  | _ => true
  end.

(** What a footprint rules out of a stretch of trace. *)
Record quiet (fp : Footprint) (new : list Effect) : Prop := {
  quiet_sends c : fp (KSend (Some c)) = false → sends_of c new = [];
  quiet_store : fp KStore = false → store_calls new = [];
  quiet_fetches : fp KFetch = false → fetches new = [];
  quiet_storage : fp KSetItem = false → storage_writes new = [];
  quiet_logs : fp KLog = false → console_logs new = [] }.

(** ** Vocabulary of the statements *)

Definition is_Text (event : Message) : bool :=
  match event with Text _ => true | _ => false end.

(** Line 193 logs the payload unless its cmd is SUBSCRIBE or AUTHENTICATE. *)
Definition logged (payload : JSValue) : bool :=
  match prop payload "cmd" with
  | Ok c => negb (includes_cmd c)
  | Throw _ => false
  end.

(** The payload carries cmd = AUTHORIZE and the token endpoint rejects the
    exchange of its code, so that the handler stops at line 119. *)
Definition token_exchange_fails (env : Env) (payload : JSValue) : bool :=
  match prop payload "cmd", prop payload "data" with
  | Ok c, Ok d =>
      (c === RPCCommand.AUTHORIZE) &&
      match prop d "code" with
      | Ok code =>
          match fetch env (token_request code) with
          | Some _ => false
          | None => true
          end
      | Throw _ => true
      end
  | _, _ => false
  end.

Definition fp_no_store : Footprint := λ k,
  match k with KStore => false | _ => true end.

Definition fp_reselect : Footprint := λ k,
  match k with
  | KSend (Some RPCCommand.GET_SELECTED_VOICE_CHANNEL) | KStore => true
  | _ => false
  end.

(** The nonces on the wire are the draws numbered [ks] of the generator,
    each made once and before now. *)
Definition drawn (env : Env) (w : World) (ks : list nat) : Prop :=
  nonces (trace w) = (λ k, Some (uuid_v4 env k)) <$> ks ∧
  NoDup ks ∧
  Forall (λ k, k < uuid_calls w)%nat ks.

(** ** Payloads that carry one tag only *)

(** The cmd matches none of the command branches. *)
Definition no_command (c : JSValue) : bool :=
  negb (c === RPCCommand.AUTHORIZE) &&
  negb (c === RPCCommand.GET_SELECTED_VOICE_CHANNEL) &&
  negb (c === RPCCommand.AUTHENTICATE) &&
  negb (c === RPCCommand.GET_CHANNEL).

(** The evt matches none of the event branches. *)
Definition no_event (e : JSValue) : bool :=
  negb (e === RPCEvent.READY) &&
  negb (e === RPCEvent.SPEAKING_START) &&
  negb (e === RPCEvent.SPEAKING_STOP) &&
  negb (e === RPCEvent.VOICE_STATE_DELETE) &&
  negb (e === RPCEvent.VOICE_STATE_CREATE) &&
  negb (e === RPCEvent.VOICE_CHANNEL_SELECT).

(** [v] is undefined or null. *)
Definition nullish (v : JSValue) : bool :=
  match v with
  | JUndefined | JNull => true
  | _ => false
  end.

(** What line 193 appends for a payload of cmd [c]. *)
Definition log_of (payload c : JSValue) : list Effect :=
  if includes_cmd c then [] else [ConsoleLog payload].

(** ** More sample frames *)

Definition more_frames : list (string * JSValue) :=
  [ ("null", JNull);
    ("number", JNum 5);
    ("pong", JObj [("cmd", JStr "DISPATCH"); ("evt", JStr "PONG")]);
    ("subscribed",
     JObj [("cmd", JStr "SUBSCRIBE"); ("evt", JNull);
           ("data", JObj [("evt", JStr "SPEAKING_START")])]);
    ("channel",
     JObj [("cmd", JStr "GET_CHANNEL"); ("evt", JNull);
           ("data", JObj [("id", JStr "42")])]);
    ("left",
     JObj [("cmd", JStr "DISPATCH"); ("evt", JStr "VOICE_STATE_DELETE");
           ("data", JObj [("user", JObj [("id", JStr "7")])])]);
    ("left_nobody",
     JObj [("cmd", JStr "DISPATCH"); ("evt", JStr "VOICE_STATE_DELETE");
           ("data", JObj [])]);
    ("joined",
     JObj [("cmd", JStr "DISPATCH"); ("evt", JStr "VOICE_STATE_CREATE");
           ("data", JObj [("user", JObj [("id", JStr "8")])])]);
    ("selected_nothing",
     JObj [("cmd", JStr "GET_SELECTED_VOICE_CHANNEL"); ("data", JNull)]);
    ("authenticate_nothing", JObj [("cmd", JStr "AUTHENTICATE")]);
    ("select_nothing", JObj [("evt", JStr "VOICE_CHANNEL_SELECT")]);
    ("ready_dispatch", JObj [("cmd", JStr "DISPATCH"); ("evt", JStr "READY")]);
    ("moved",
     JObj [("cmd", JStr "DISPATCH"); ("evt", JStr "VOICE_CHANNEL_SELECT");
           ("data", JObj [("channel_id", JStr "43")])]);
    ("hung_up",
     JObj [("cmd", JStr "DISPATCH"); ("evt", JStr "VOICE_CHANNEL_SELECT");
           ("data", JObj [("channel_id", JNull)])]) ].

(** The sample environment, reading the frames of both tables. *)
Definition sample_env2 : Env :=
  {| JSON_parse := λ text, assoc text (sample_frames ++ more_frames);
     uuid_v4 := tally;
     fetch := sample_fetch;
     WebSocket_connect := WebSocket_connect sample_env |}.

(** What one interaction does to local storage. *)
Definition storage_after (a : Action) (items : gmap string string) : gmap string string :=
  match a with
  | ASetItem k v => <[k := v]> items
  | _ => items
  end.

Definition fp_no_exchange : Footprint := λ k,
  match k with KFetch | KSetItem => false | _ => true end.

(** The frames the handler may write: each has a cmd, never UNSUBSCRIBE. *)
Definition fp_handler : Footprint := λ k,
  match k with
  | KSend None | KSend (Some RPCCommand.UNSUBSCRIBE) => false
  | _ => true
  end.

(** * Proofs *)

Local Open Scope list_scope.
Local Open Scope nat_scope.

(** ** The monad *)

Lemma bind_Ok {A B} (m : M A) (k : A → M B) w a w' :
  m w = (Ok a, w') → bind m k w = k a w'.
Proof. intros H. unfold bind. by rewrite H. Qed.

(** ** Reading properties *)

(** A value with one readable property is neither undefined nor null. *)
Lemma prop_defined v k x k' : prop v k = Ok x → ∃ y, prop v k' = Ok y.
Proof. destruct v; simpl; intros; try done; eauto. Qed.

Lemma prop_opt_defined v k x : prop v k = Ok x → prop_opt v k = Ok x.
Proof. by destruct v. Qed.

(** ** Footprints *)

Ltac fp_le :=
  let k := fresh "k" in
  intros k; destruct k as [[[]|]| | | | |]; cbv; intros; congruence.

Lemma fp_le_all fp : fp ⊑ fp_all.
Proof. by intros k _. Qed.

Lemma fp_le_refl fp : fp ⊑ fp.
Proof. by intros k. Qed.

(** ** Step relation *)

Section Steps.
Variable env : Env.

Lemma steps_trans fp w1 w2 w3 :
  steps env fp w1 w2 → steps env fp w2 w3 → steps env fp w1 w3.
Proof.
  induction 1 as [|a w w' Ha _ IH]; [done|].
  intros H3. eapply steps_step; [exact Ha|]. by apply IH.
Qed.

Lemma steps_mono fp fp' w w' :
  fp ⊑ fp' → steps env fp w w' → steps env fp' w w'.
Proof.
  intros Hle. induction 1 as [|a w w' Ha _ IH]; [constructor|].
  eapply steps_step; [by apply Hle|done].
Qed.

Lemma steps_one fp a w :
  fp (kind_of a) = true → steps env fp w (apply_action env a w).
Proof. intros Ha. eapply steps_step; [exact Ha|constructor]. Qed.

Lemma steps_this fp w w' : steps env fp w w' → this w' = this w.
Proof.
  induction 1 as [|a w w' _ _ IH]; [done|]. rewrite IH. by destruct a.
Qed.

Lemma steps_localStorage fp w w' :
  fp KSetItem = false → steps env fp w w' → localStorage w' = localStorage w.
Proof.
  intros Hfp. induction 1 as [|a w w' Ha _ IH]; [done|].
  rewrite IH. destruct a; simpl in *; congruence.
Qed.

(** A run within [fp] extends the trace by effects of kinds within [fp]. *)
Lemma steps_trace fp w w' :
  steps env fp w w' →
  ∃ new, trace w' = trace w ++ new ∧ Forall (λ e, fp (effect_kind e) = true) new.
Proof.
  induction 1 as [w|a w w' Ha _ (new & Htr & Hnew)].
  - exists []. by rewrite app_nil_r.
  - destruct a; simpl in *;
      try (eexists (_ :: new); rewrite Htr, <-app_assoc; split;
           [reflexivity|by constructor]).
    by exists new.
Qed.

Lemma runs_ret {A} fp (a : A) : runs env fp (ret a).
Proof. intros w. constructor. Qed.

Lemma runs_throw {A} fp e : runs env fp (@throw A e).
Proof. intros w. constructor. Qed.

Lemma runs_lift {A} fp (r : Result A) : runs env fp (lift r).
Proof. intros w. constructor. Qed.

Lemma runs_get_this fp : runs env fp get_this.
Proof. intros w. constructor. Qed.

Lemma runs_bind {A B} fp (m : M A) (k : A → M B) :
  runs env fp m → (∀ a, runs env fp (k a)) → runs env fp (bind m k).
Proof.
  intros Hm Hk w. unfold bind. specialize (Hm w).
  destruct (m w) as [[a|e] w1]; simpl in *; [|done].
  eapply steps_trans; [exact Hm|apply Hk].
Qed.

Lemma runs_perform fp a : fp (kind_of a) = true → runs env fp (perform env a).
Proof. intros Ha w. by apply steps_one. Qed.

Lemma runs_uuid fp : fp KUuid = true → runs env fp (uuid_v4_call env).
Proof. intros Ha w. by apply (steps_one fp AUuid). Qed.

Lemma runs_accessToken fp : runs env fp accessToken.
Proof. intros w. unfold accessToken. destruct (tokenStore (this w)); constructor. Qed.

Lemma runs_forEach {A} fp (f : A → M unit) xs :
  (∀ x, runs env fp (f x)) → runs env fp (forEach f xs).
Proof.
  intros Hf. induction xs as [|x xs IH]; simpl; [apply runs_ret|].
  apply runs_bind; [apply Hf|done].
Qed.

Lemma runs_send fp payload :
  fp (KSend (cmd payload)) = true → runs env fp (send env payload).
Proof.
  intros Hp. apply runs_bind; [apply runs_get_this|]. intros t.
  destruct (socket t); [by apply runs_perform|apply runs_ret].
Qed.

Lemma runs_store_call fp arg action :
  fp KStore = true → runs env fp arg → runs env fp (store_call env arg action).
Proof.
  intros Hs Harg. apply runs_bind; [apply runs_get_this|]. intros t.
  destruct (store t); [|apply runs_ret].
  apply runs_bind; [done|]. intros v. by apply runs_perform.
Qed.

Lemma runs_setAccessToken fp token :
  fp KSetItem = true → runs env fp (setAccessToken env token).
Proof.
  intros Hs. apply runs_bind; [apply runs_get_this|]. intros t.
  destruct (tokenStore t); [by apply runs_perform|apply runs_ret].
Qed.

Lemma runs_fetch_token fp req : fp KFetch = true → runs env fp (fetch_token env req).
Proof.
  intros Hf. apply runs_bind; [by apply runs_perform|]. intros _.
  destruct (fetch env req); [apply runs_ret|apply runs_throw].
Qed.

Lemma runs_channelEvents fp c channelId :
  fp KUuid = true → fp (KSend (Some c)) = true →
  runs env fp (channelEvents env c channelId).
Proof.
  intros Hu Hs. apply runs_forEach. intros e.
  apply runs_bind; [by apply runs_uuid|]. intros n. by apply runs_send.
Qed.

(** *** Footprint of every branch, whatever the payload *)

Ltac runs_step :=
  first
    [ apply runs_ret | apply runs_lift | apply runs_throw | apply runs_accessToken
    | apply runs_send | apply runs_store_call | apply runs_setAccessToken
    | apply runs_fetch_token | apply runs_channelEvents | apply runs_perform
    | apply runs_bind; [|intros ?]
    | match goal with |- runs _ _ (if ?b then _ else _) => destruct b end ].

Ltac runs_auto Hle := repeat runs_step; try (apply Hle; reflexivity).

Lemma runs_on_READY fp payload :
  fp_READY ⊑ fp → runs env fp (on_READY env payload).
Proof. intros Hle. unfold on_READY, login, authenticate. runs_auto Hle. Qed.

Lemma runs_on_AUTHORIZE fp payload :
  fp_AUTHORIZE ⊑ fp → runs env fp (on_AUTHORIZE env payload).
Proof. intros Hle. unfold on_AUTHORIZE, login. runs_auto Hle. Qed.

Lemma runs_on_GET_SELECTED_VOICE_CHANNEL fp payload :
  fp_GET_SELECTED_VOICE_CHANNEL ⊑ fp →
  runs env fp (on_GET_SELECTED_VOICE_CHANNEL env payload).
Proof. intros Hle. unfold on_GET_SELECTED_VOICE_CHANNEL. runs_auto Hle. Qed.

Lemma runs_on_AUTHENTICATE fp payload :
  fp_AUTHENTICATE ⊑ fp → runs env fp (on_AUTHENTICATE env payload).
Proof. intros Hle. unfold on_AUTHENTICATE, requestUserChannel. runs_auto Hle. Qed.

Lemma runs_on_SPEAKING fp payload :
  fp_store ⊑ fp → runs env fp (on_SPEAKING env payload).
Proof. intros Hle. unfold on_SPEAKING. runs_auto Hle. Qed.

Lemma runs_on_VOICE_STATE_DELETE fp payload :
  fp_store ⊑ fp → runs env fp (on_VOICE_STATE_DELETE env payload).
Proof. intros Hle. unfold on_VOICE_STATE_DELETE. runs_auto Hle. Qed.

Lemma runs_on_VOICE_STATE_CREATE fp payload :
  fp_store ⊑ fp → runs env fp (on_VOICE_STATE_CREATE env payload).
Proof. intros Hle. unfold on_VOICE_STATE_CREATE. runs_auto Hle. Qed.

Lemma runs_on_GET_CHANNEL fp payload :
  fp_GET_CHANNEL ⊑ fp → runs env fp (on_GET_CHANNEL env payload).
Proof. intros Hle. unfold on_GET_CHANNEL, requestUserChannel. runs_auto Hle. Qed.

Lemma runs_on_VOICE_CHANNEL_SELECT fp payload :
  fp_VOICE_CHANNEL_SELECT ⊑ fp → runs env fp (on_VOICE_CHANNEL_SELECT env payload).
Proof.
  intros Hle. unfold on_VOICE_CHANNEL_SELECT, requestUserChannel. runs_auto Hle.
Qed.

Lemma runs_on_log fp payload : fp_log ⊑ fp → runs env fp (on_log env payload).
Proof. intros Hle. unfold on_log. runs_auto Hle. Qed.

End Steps.

(** ** Evaluating the handler on a known payload *)

Arguments strict_eq : simpl never.
Arguments prop : simpl never.
Arguments prop_opt : simpl never.
Arguments apply_action : simpl never.
Arguments RPCEvent.to_string : simpl never.
Arguments RPCCommand.to_string : simpl never.
Arguments truthy : simpl never.
Arguments truthy_token : simpl never.

Section Eval.
Variable env : Env.

Lemma this_apply_action a w : this (apply_action env a w) = this w.
Proof. by destruct a. Qed.

Lemma trace_apply_action a w :
  trace (apply_action env a w) = trace w ++ effect_of env a w.
Proof. destruct a; simpl; by rewrite ?app_nil_r. Qed.

Lemma uuid_calls_apply_action a w :
  uuid_calls (apply_action env a w) = draws a + uuid_calls w.
Proof. by destruct a. Qed.

Lemma runs_result {A} fp (m : M A) w r w' :
  runs env fp m → m w = (r, w') → steps env fp w w'.
Proof. intros Hm E. specialize (Hm w). by rewrite E in Hm. Qed.

Lemma E_bind {A B} (m : M A) (k : A → M B) w a w1 r :
  m w = (Ok a, w1) → k a w1 = r → bind m k w = r.
Proof. intros H <-. by apply bind_Ok. Qed.

Lemma E_lift {A} (r : Result A) a w : r = Ok a → lift r w = (Ok a, w).
Proof. by intros ->. Qed.

Lemma E_send payload w ws :
  socket (this w) = Some ws →
  send env payload w = (Ok tt, apply_action env (ASend payload) w).
Proof. intros H. unfold send, bind, get_this. by rewrite H. Qed.

Lemma E_store_call arg action w st v :
  store (this w) = Some st → arg w = (Ok v, w) →
  store_call env arg action w = (Ok tt, apply_action env (AStore (action v)) w).
Proof. intros H Ha. unfold store_call, bind, get_this. by rewrite H, Ha. Qed.

Lemma E_setAccessToken token w ts :
  tokenStore (this w) = Some ts →
  setAccessToken env token w
  = (Ok tt, apply_action env (ASetItem (TokenStore.key ts) token) w).
Proof. intros H. unfold setAccessToken, bind, get_this. by rewrite H. Qed.

Lemma E_accessToken w ts :
  tokenStore (this w) = Some ts →
  accessToken w = (Ok (localStorage w !! TokenStore.key ts), w).
Proof. intros H. unfold accessToken. by rewrite H. Qed.

Lemma E_fetch_token req res w :
  fetch env req = Some res →
  fetch_token env req w = (Ok res, apply_action env (AFetch req) w).
Proof. intros H. unfold fetch_token, bind, perform. by rewrite H. Qed.

End Eval.

Ltac ev_atom :=
  first
    [ reflexivity
    | apply E_lift; first [eassumption | apply prop_opt_defined; eassumption]
    | eapply E_send; rewrite ?this_apply_action; eassumption
    | eapply E_setAccessToken; rewrite ?this_apply_action; eassumption
    | eapply E_accessToken; rewrite ?this_apply_action; eassumption
    | eapply E_fetch_token; eassumption ].

Ltac ev_cond :=
  match goal with
  | H : ?b = _ |- context [if ?b then _ else _] => rewrite H
  end.

(** Runs a monadic term step by step on the facts in the context. *)
Ltac ev :=
  cbv beta iota;
  first
    [ ev_cond; ev
    | lazymatch goal with |- bind _ _ _ = _ => eapply E_bind; [ev|ev] end
    | lazymatch goal with
      | |- store_call _ _ _ _ = _ =>
          eapply E_store_call; [rewrite ?this_apply_action; eassumption|ev]
      end
    | ev_atom ].

(** Reads the trace off a world built from [apply_action]s. *)
Ltac trace_of :=
  rewrite ?trace_apply_action, ?uuid_calls_apply_action;
  cbn [effect_of draws with_nonce cmd args evt Nat.add];
  rewrite <-?app_assoc; cbn [app].

Section Branches.
Variable env : Env.
Implicit Types (payload c e d : JSValue) (w : World).

(** *** A branch whose test fails does nothing *)

Lemma on_READY_skip payload e w :
  prop payload "evt" = Ok e → (e === RPCEvent.READY) = false →
  on_READY env payload w = (Ok tt, w).
Proof. intros H1 H2. unfold on_READY. ev. Qed.

Lemma on_AUTHORIZE_skip payload c w :
  prop payload "cmd" = Ok c → (c === RPCCommand.AUTHORIZE) = false →
  on_AUTHORIZE env payload w = (Ok tt, w).
Proof. intros H1 H2. unfold on_AUTHORIZE. ev. Qed.

Lemma on_GET_SELECTED_VOICE_CHANNEL_skip payload c w :
  prop payload "cmd" = Ok c → (c === RPCCommand.GET_SELECTED_VOICE_CHANNEL) = false →
  on_GET_SELECTED_VOICE_CHANNEL env payload w = (Ok tt, w).
Proof. intros H1 H2. unfold on_GET_SELECTED_VOICE_CHANNEL. ev. Qed.

Lemma on_AUTHENTICATE_skip payload c w :
  prop payload "cmd" = Ok c → (c === RPCCommand.AUTHENTICATE) = false →
  on_AUTHENTICATE env payload w = (Ok tt, w).
Proof. intros H1 H2. unfold on_AUTHENTICATE. ev. Qed.

Lemma on_SPEAKING_skip payload e w :
  prop payload "evt" = Ok e →
  (e === RPCEvent.SPEAKING_START) = false → (e === RPCEvent.SPEAKING_STOP) = false →
  on_SPEAKING env payload w = (Ok tt, w).
Proof.
  intros H1 H2 H3. unfold on_SPEAKING.
  eapply E_bind; [ev|]. cbv beta. by rewrite H2, H3.
Qed.

Lemma on_VOICE_STATE_DELETE_skip payload e w :
  prop payload "evt" = Ok e → (e === RPCEvent.VOICE_STATE_DELETE) = false →
  on_VOICE_STATE_DELETE env payload w = (Ok tt, w).
Proof. intros H1 H2. unfold on_VOICE_STATE_DELETE. ev. Qed.

Lemma on_VOICE_STATE_CREATE_skip payload e w :
  prop payload "evt" = Ok e → (e === RPCEvent.VOICE_STATE_CREATE) = false →
  on_VOICE_STATE_CREATE env payload w = (Ok tt, w).
Proof. intros H1 H2. unfold on_VOICE_STATE_CREATE. ev. Qed.

Lemma on_GET_CHANNEL_skip payload c w :
  prop payload "cmd" = Ok c → (c === RPCCommand.GET_CHANNEL) = false →
  on_GET_CHANNEL env payload w = (Ok tt, w).
Proof. intros H1 H2. unfold on_GET_CHANNEL. ev. Qed.

Lemma on_VOICE_CHANNEL_SELECT_skip payload e w :
  prop payload "evt" = Ok e → (e === RPCEvent.VOICE_CHANNEL_SELECT) = false →
  on_VOICE_CHANNEL_SELECT env payload w = (Ok tt, w).
Proof. intros H1 H2. unfold on_VOICE_CHANNEL_SELECT. ev. Qed.

(** *** A branch whose test holds, on an initialised session *)

Lemma on_READY_fire payload e w ws ts :
  prop payload "evt" = Ok e → (e === RPCEvent.READY) = true →
  socket (this w) = Some ws → tokenStore (this w) = Some ts →
  let token := localStorage w !! TokenStore.key ts in
  let n := uuid_v4 env (uuid_calls w) in
  ∃ w', on_READY env payload w = (Ok tt, w') ∧
        trace w' = trace w ++
          [SocketSend (if truthy_token token
                       then frame_AUTHENTICATE (default "" token) n
                       else frame_AUTHORIZE n)].
Proof.
  intros He He' Hs Hts token n. subst token n.
  destruct (truthy_token (localStorage w !! TokenStore.key ts)) eqn:Htok.
  - eexists. split; [unfold on_READY, login; ev|]. by trace_of.
  - eexists. split; [unfold on_READY, authenticate; ev|]. by trace_of.
Qed.

Lemma on_AUTHORIZE_fire payload c d code res w ws ts :
  prop payload "cmd" = Ok c → (c === RPCCommand.AUTHORIZE) = true →
  prop payload "data" = Ok d → prop d "code" = Ok code →
  fetch env (token_request code) = Some res →
  socket (this w) = Some ws → tokenStore (this w) = Some ts →
  ∃ w', on_AUTHORIZE env payload w = (Ok tt, w') ∧
        trace w' = trace w ++
          [HttpFetch (token_request code);
           StorageSetItem (TokenStore.key ts) (access_token res);
           SocketSend (frame_AUTHENTICATE (access_token res)
                         (uuid_v4 env (uuid_calls w)))] ∧
        localStorage w' = <[TokenStore.key ts := access_token res]> (localStorage w).
Proof.
  intros Hc Hc' Hd Hcode Hres Hs Hts.
  eexists. split; [unfold on_AUTHORIZE, login; ev|]. split; [by trace_of|done].
Qed.

Lemma on_GET_SELECTED_VOICE_CHANNEL_fire payload c d C L w ws st :
  prop payload "cmd" = Ok c → (c === RPCCommand.GET_SELECTED_VOICE_CHANNEL) = true →
  prop payload "data" = Ok d → prop d "id" = Ok C → prop d "voice_states" = Ok L →
  socket (this w) = Some ws → store (this w) = Some st →
  let n i := uuid_v4 env (i + uuid_calls w) in
  ∃ w', on_GET_SELECTED_VOICE_CHANNEL env payload w = (Ok tt, w') ∧
        trace w' = trace w ++
          [SocketSend (frame_channel_event RPCCommand.SUBSCRIBE C RPCEvent.SPEAKING_START (n 1));
           SocketSend (frame_channel_event RPCCommand.SUBSCRIBE C RPCEvent.SPEAKING_STOP (n 3));
           SocketSend (frame_channel_event RPCCommand.SUBSCRIBE C RPCEvent.VOICE_STATE_CREATE (n 5));
           SocketSend (frame_channel_event RPCCommand.SUBSCRIBE C RPCEvent.VOICE_STATE_DELETE (n 7));
           SocketSend (frame_channel_event RPCCommand.SUBSCRIBE C RPCEvent.VOICE_STATE_DELETE (n 9));
           StoreAction (setUsers L);
           StoreAction (setCurrentChannel C)].
Proof.
  intros Hc Hc' Hd Hid Hvs Hs Hst n. subst n.
  eexists. split.
  - unfold on_GET_SELECTED_VOICE_CHANNEL, channelEvents. simpl forEach. ev.
  - by trace_of.
Qed.

Lemma on_AUTHENTICATE_fire payload c d user w ws st :
  prop payload "cmd" = Ok c → (c === RPCCommand.AUTHENTICATE) = true →
  prop payload "data" = Ok d → prop d "user" = Ok user →
  socket (this w) = Some ws → store (this w) = Some st →
  ∃ w', on_AUTHENTICATE env payload w = (Ok tt, w') ∧
        trace w' = trace w ++
          [SocketSend (frame_GET_SELECTED_VOICE_CHANNEL (uuid_v4 env (uuid_calls w)));
           SocketSend (frame_SUBSCRIBE_VOICE_CHANNEL_SELECT
                         (uuid_v4 env (S (uuid_calls w))));
           StoreAction (setMe user)].
Proof.
  intros Hc Hc' Hd Hu Hs Hst.
  eexists. split; [unfold on_AUTHENTICATE, requestUserChannel; ev|]. by trace_of.
Qed.

Lemma on_SPEAKING_fire payload e d U w st :
  prop payload "evt" = Ok e →
  (e === RPCEvent.SPEAKING_START) || (e === RPCEvent.SPEAKING_STOP) = true →
  prop payload "data" = Ok d → prop d "user_id" = Ok U →
  store (this w) = Some st →
  on_SPEAKING env payload w
  = (Ok tt, apply_action env (AStore (setTalking U (e === RPCEvent.SPEAKING_START))) w).
Proof.
  intros He He' Hd Hu Hst. unfold on_SPEAKING.
  eapply E_bind; [ev|]. cbv beta. rewrite He'. cbv zeta.
  rewrite negb_involutive.
  by rewrite (E_store_call env _ _ w st U Hst) by ev.
Qed.

Lemma on_VOICE_CHANNEL_SELECT_fire payload e d channel_id w ws st :
  prop payload "evt" = Ok e → (e === RPCEvent.VOICE_CHANNEL_SELECT) = true →
  prop payload "data" = Ok d → prop d "channel_id" = Ok channel_id →
  truthy channel_id = true →
  socket (this w) = Some ws → store (this w) = Some st →
  ∃ w', on_VOICE_CHANNEL_SELECT env payload w = (Ok tt, w') ∧
        trace w' = trace w ++
          [SocketSend (frame_GET_SELECTED_VOICE_CHANNEL (uuid_v4 env (uuid_calls w)));
           StoreAction (setCurrentChannel channel_id);
           SocketSend (frame_GET_CHANNEL channel_id (uuid_v4 env (S (uuid_calls w))))].
Proof.
  intros He He' Hd Hch Htr Hs Hst.
  eexists. split; [unfold on_VOICE_CHANNEL_SELECT, requestUserChannel; ev|].
  by trace_of.
Qed.

Lemma on_log_eval payload c w :
  prop payload "cmd" = Ok c →
  on_log env payload w
  = (Ok tt, if includes_cmd c then w else apply_action env (ALog payload) w).
Proof.
  intros Hc. unfold on_log. eapply E_bind; [ev|]. cbv beta.
  by destruct (includes_cmd c).
Qed.

End Branches.

(** ** What a footprint rules out of a trace *)

Lemma omap_quiet {A B} (f : A → option B) (P : A → Prop) (l : list A) :
  Forall P l → (∀ x, P x → f x = None) → omap f l = [].
Proof.
  intros Hl Hf. induction Hl as [|x l Hx _ IH]; [done|].
  simpl. by rewrite (Hf x Hx).
Qed.

Lemma RPCCommand_eqb_eq a b : RPCCommand.eqb a b = true → a = b.
Proof. by destruct a, b. Qed.

Lemma Forall_quiet fp new :
  Forall (λ e, fp (effect_kind e) = true) new → quiet fp new.
Proof.
  intros Hnew. split.
  - intros c Hc. eapply omap_quiet; [exact Hnew|].
    intros [p| | | |] Hp; simpl in *; try done.
    destruct (cmd p) as [c'|]; [|done].
    destruct (RPCCommand.eqb c c') eqn:E; [|done].
    apply RPCCommand_eqb_eq in E as ->. congruence.
  - intros Hk. eapply omap_quiet; [exact Hnew|].
    intros [] Hp; simpl in *; congruence.
  - intros Hk. eapply omap_quiet; [exact Hnew|].
    intros [] Hp; simpl in *; congruence.
  - intros Hk. eapply omap_quiet; [exact Hnew|].
    intros [] Hp; simpl in *; congruence.
  - intros Hk. eapply omap_quiet; [exact Hnew|].
    intros [] Hp; simpl in *; congruence.
Qed.

(** What a run within a footprint leaves behind. *)
Lemma steps_frame env fp w w' :
  steps env fp w w' →
  this w' = this w ∧ ∃ new, trace w' = trace w ++ new ∧ quiet fp new.
Proof.
  intros H. split; [by eapply steps_this|].
  destruct (steps_trace env _ _ _ H) as (new & Htr & Hnew).
  exists new. split; [done|by apply Forall_quiet].
Qed.

Lemma sends_of_app c l1 l2 : sends_of c (l1 ++ l2) = sends_of c l1 ++ sends_of c l2.
Proof. apply omap_app. Qed.

Lemma store_calls_app l1 l2 : store_calls (l1 ++ l2) = store_calls l1 ++ store_calls l2.
Proof. apply omap_app. Qed.

Lemma console_logs_app l1 l2 :
  console_logs (l1 ++ l2) = console_logs l1 ++ console_logs l2.
Proof. apply omap_app. Qed.

Lemma initialised_inv w :
  initialised w = true →
  ∃ ws st ts, socket (this w) = Some ws ∧ store (this w) = Some st ∧
              tokenStore (this w) = Some ts ∧
              TokenStore.key ts = "discord_access_token".
Proof.
  unfold initialised.
  destruct (socket (this w)) as [ws|], (store (this w)) as [st|],
    (tokenStore (this w)) as [ts|]; try done.
  intros H%String.eqb_eq. eauto 10.
Qed.

Lemma runs_skip {A} env fp (m : M A) a : (∀ w, m w = (Ok a, w)) → runs env fp m.
Proof. intros H w. rewrite H. constructor. Qed.

(** ** Branches that complete, whether or not their test holds *)

Section Complete.
Variable env : Env.
Implicit Types (payload c e d : JSValue) (w : World).

Lemma on_READY_ok payload e w ws ts :
  prop payload "evt" = Ok e →
  socket (this w) = Some ws → tokenStore (this w) = Some ts →
  ∃ w', on_READY env payload w = (Ok tt, w') ∧ steps env fp_READY w w'.
Proof.
  intros He Hs Hts. destruct (e === RPCEvent.READY) eqn:E.
  - destruct (on_READY_fire env payload e w ws ts) as (w' & Hw' & _); try done.
    exists w'. split; [done|].
    eapply runs_result; [|exact Hw']. apply runs_on_READY, fp_le_refl.
  - exists w. split; [by eapply on_READY_skip|constructor].
Qed.

Lemma on_AUTHORIZE_ok payload c d code w ws ts :
  prop payload "cmd" = Ok c →
  prop payload "data" = Ok d → prop d "code" = Ok code →
  ((c === RPCCommand.AUTHORIZE) = true → is_Some (fetch env (token_request code))) →
  socket (this w) = Some ws → tokenStore (this w) = Some ts →
  ∃ w', on_AUTHORIZE env payload w = (Ok tt, w') ∧ steps env fp_AUTHORIZE w w'.
Proof.
  intros Hc Hd Hcode Hf Hs Hts. destruct (c === RPCCommand.AUTHORIZE) eqn:E.
  - destruct Hf as [res Hres]; [done|].
    destruct (on_AUTHORIZE_fire env payload c d code res w ws ts)
      as (w' & Hw' & _); try done.
    exists w'. split; [done|].
    eapply runs_result; [|exact Hw']. apply runs_on_AUTHORIZE, fp_le_refl.
  - exists w. split; [by eapply on_AUTHORIZE_skip|constructor].
Qed.

Lemma on_GET_SELECTED_VOICE_CHANNEL_ok payload c d x w ws st :
  prop payload "cmd" = Ok c →
  prop payload "data" = Ok d → prop d "id" = Ok x →
  socket (this w) = Some ws → store (this w) = Some st →
  ∃ w', on_GET_SELECTED_VOICE_CHANNEL env payload w = (Ok tt, w') ∧
        steps env fp_GET_SELECTED_VOICE_CHANNEL w w'.
Proof.
  intros Hc Hd Hx Hs Hst.
  destruct (c === RPCCommand.GET_SELECTED_VOICE_CHANNEL) eqn:E.
  - destruct (prop_defined d "id" x "voice_states" Hx) as [L HL].
    destruct (on_GET_SELECTED_VOICE_CHANNEL_fire env payload c d x L w ws st)
      as (w' & Hw' & _); try done.
    exists w'. split; [done|].
    eapply runs_result; [|exact Hw'].
    apply runs_on_GET_SELECTED_VOICE_CHANNEL, fp_le_refl.
  - exists w. split; [by eapply on_GET_SELECTED_VOICE_CHANNEL_skip|constructor].
Qed.

Lemma on_AUTHENTICATE_ok payload c d x w ws st :
  prop payload "cmd" = Ok c →
  prop payload "data" = Ok d → prop d "user" = Ok x →
  socket (this w) = Some ws → store (this w) = Some st →
  ∃ w', on_AUTHENTICATE env payload w = (Ok tt, w') ∧
        steps env fp_AUTHENTICATE w w'.
Proof.
  intros Hc Hd Hx Hs Hst. destruct (c === RPCCommand.AUTHENTICATE) eqn:E.
  - destruct (on_AUTHENTICATE_fire env payload c d x w ws st)
      as (w' & Hw' & _); try done.
    exists w'. split; [done|].
    eapply runs_result; [|exact Hw']. apply runs_on_AUTHENTICATE, fp_le_refl.
  - exists w. split; [by eapply on_AUTHENTICATE_skip|constructor].
Qed.

End Complete.

(** ** Framing the rest of the handler *)

Ltac skip_side := first [eassumption | reflexivity].

Ltac runs_branch :=
  first
    [ apply runs_on_READY; solve [fp_le]
    | apply runs_on_AUTHORIZE; solve [fp_le]
    | apply runs_on_GET_SELECTED_VOICE_CHANNEL; solve [fp_le]
    | apply runs_on_AUTHENTICATE; solve [fp_le]
    | apply runs_on_SPEAKING; solve [fp_le]
    | apply runs_on_VOICE_STATE_DELETE; solve [fp_le]
    | apply runs_on_VOICE_STATE_CREATE; solve [fp_le]
    | apply runs_on_GET_CHANNEL; solve [fp_le]
    | apply runs_on_VOICE_CHANNEL_SELECT; solve [fp_le]
    | apply runs_on_log; solve [fp_le]
    | eapply runs_skip; intros;
      first [ eapply on_READY_skip | eapply on_AUTHORIZE_skip
            | eapply on_GET_SELECTED_VOICE_CHANNEL_skip | eapply on_AUTHENTICATE_skip
            | eapply on_SPEAKING_skip | eapply on_VOICE_STATE_DELETE_skip
            | eapply on_VOICE_STATE_CREATE_skip | eapply on_GET_CHANNEL_skip
            | eapply on_VOICE_CHANNEL_SELECT_skip ]; skip_side ].

Ltac runs_chain := repeat (apply runs_bind; [|intros _]); runs_branch.

(** Frames the rest of the handler, run from [w1], within footprint [fp]. *)
Ltac tail_frame env fp w1 new Htr Hq :=
  match goal with
  | |- context [(?m w1).2] =>
      let Hr := fresh "Hr" in
      assert (Hr : runs env fp m) by runs_chain;
      destruct (steps_frame env fp w1 (m w1).2 (Hr w1)) as (_ & new & Htr & Hq);
      clear Hr
  end.

(** C1 (amended). On an initialised session, for every text frame whose
    payload has evt = READY and whose cmd is not AUTHORIZE: if the token store
    holds a non-empty cached token, the handler sends exactly one AUTHENTICATE
    command, carrying that token and the nonce drawn for it, and no AUTHORIZE
    command; if it holds no token, or the empty string, the handler sends
    exactly one AUTHORIZE command (client id and the rpc scope) and no
    AUTHENTICATE command. *)
Theorem ready_authenticates_or_authorizes env data payload c w :
  initialised w = true →
  JSON_parse env data = Some payload →
  prop payload "evt" = Ok (JStr RPCEvent.READY) →
  prop payload "cmd" = Ok c → (c === RPCCommand.AUTHORIZE) = false →
  ∃ new, trace (onMessage env (Text data) w).2 = trace w ++ new ∧
    let n := uuid_v4 env (uuid_calls w) in
    (∀ t, cached_token w = Some t → t ≠ "" →
       sends_of RPCCommand.AUTHENTICATE new = [frame_AUTHENTICATE t n] ∧
       sends_of RPCCommand.AUTHORIZE new = []) ∧
    (cached_token w = None ∨ cached_token w = Some "" →
       sends_of RPCCommand.AUTHORIZE new = [frame_AUTHORIZE n] ∧
       sends_of RPCCommand.AUTHENTICATE new = []).
Proof.
  intros Hinit Hparse Hevt Hc Hc'.
  destruct (initialised_inv w Hinit) as (ws & st & ts & Hs & Hst & Hts & Hkey).
  unfold onMessage. rewrite Hparse. unfold dispatch.
  destruct (on_READY_fire env payload _ w ws ts Hevt eq_refl Hs Hts)
    as (w1 & E1 & Htr1).
  rewrite (bind_Ok _ _ _ _ _ E1).
  rewrite (bind_Ok _ _ _ _ _ (on_AUTHORIZE_skip env payload c w1 Hc Hc')).
  tail_frame env fp_no_auth w1 post Hpost Hq.
  eexists. split; [by rewrite Hpost, Htr1, <-app_assoc|].
  unfold cached_token. rewrite Hts. cbv zeta.
  rewrite !sends_of_app, !(quiet_sends _ _ Hq) by done.
  split.
  - intros t Ht Hne. rewrite Ht.
    replace (truthy_token (Some t)) with true; [done|].
    symmetry. unfold truthy_token. apply negb_true_iff. by apply String.eqb_neq.
  - intros [-> | ->]; done.
Qed.

(** C2. On an initialised session, for every text frame whose payload has
    cmd = GET_SELECTED_VOICE_CHANNEL and carries channel id [C] and
    voice-state list [L]: the fixed event list is speaking-start,
    speaking-stop, voice-state-create, voice-state-delete, voice-state-delete;
    the SUBSCRIBE commands the handler sends are, in order, one per entry of
    that list, each scoped to [C]; and the store is called with [setUsers L]
    and then [setCurrentChannel C], before any other store action. *)
Theorem selected_voice_channel_subscribes env data payload d C L w :
  initialised w = true →
  JSON_parse env data = Some payload →
  prop payload "cmd" = Ok (JStr RPCCommand.GET_SELECTED_VOICE_CHANNEL) →
  prop payload "data" = Ok d → prop d "id" = Ok C → prop d "voice_states" = Ok L →
  SUBSCRIBABLE_EVENTS
  = [RPCEvent.SPEAKING_START; RPCEvent.SPEAKING_STOP; RPCEvent.VOICE_STATE_CREATE;
     RPCEvent.VOICE_STATE_DELETE; RPCEvent.VOICE_STATE_DELETE] ∧
  ∃ new rest,
    trace (onMessage env (Text data) w).2 = trace w ++ new ∧
    Forall2 (λ e frame, ∃ n, frame = frame_channel_event RPCCommand.SUBSCRIBE C e n)
            SUBSCRIBABLE_EVENTS (sends_of RPCCommand.SUBSCRIBE new) ∧
    store_calls new = setUsers L :: setCurrentChannel C :: rest.
Proof.
  intros Hinit Hparse Hc Hd Hid Hvs. split; [done|].
  destruct (initialised_inv w Hinit) as (ws & st & ts & Hs & Hst & Hts & Hkey).
  destruct (prop_defined payload "cmd" _ "evt" Hc) as [e He].
  unfold onMessage. rewrite Hparse. unfold dispatch.
  destruct (on_READY_ok env payload e w ws ts He Hs Hts) as (w1 & E1 & S1).
  rewrite (bind_Ok _ _ _ _ _ E1).
  destruct (steps_frame _ _ _ _ S1) as (Hthis & pre & Hpre & Qpre).
  rewrite (bind_Ok _ _ _ _ _ (on_AUTHORIZE_skip env payload _ w1 Hc eq_refl)).
  rewrite <-Hthis in Hs, Hst.
  destruct (on_GET_SELECTED_VOICE_CHANNEL_fire env payload _ d C L w1 ws st
              Hc eq_refl Hd Hid Hvs Hs Hst) as (w2 & E2 & Htr2).
  rewrite (bind_Ok _ _ _ _ _ E2).
  tail_frame env fp_no_subscribe w2 post Hpost Qpost.
  eexists _, (store_calls post).
  split; [by rewrite Hpost, Htr2, Hpre, <-!app_assoc|].
  rewrite !sends_of_app, !store_calls_app.
  rewrite (quiet_sends _ _ Qpre), (quiet_sends _ _ Qpost), (quiet_store _ _ Qpre) by done.
  split; [|done]. simpl. repeat constructor; by eexists.
Qed.

Lemma steps_cached_token env fp w w' :
  fp KSetItem = false → steps env fp w w' → cached_token w' = cached_token w.
Proof.
  intros Hfp H. unfold cached_token.
  by rewrite (steps_this env _ _ _ H), (steps_localStorage env _ _ _ Hfp H).
Qed.

(** C3. On an initialised session, for every text frame whose payload has
    cmd = AUTHORIZE and carries a one-time code that the token endpoint
    exchanges for an access token: the handler makes exactly one HTTP request,
    a POST of the code to the fixed token endpoint; it then stores the
    returned token under the storage key, where it is still held when the
    handler ends; and after that it sends exactly one AUTHENTICATE command,
    carrying that same token. Nothing precedes the request unless the payload
    is also a READY event. *)
Theorem authorize_exchanges_code env data payload d code token w :
  initialised w = true →
  JSON_parse env data = Some payload →
  prop payload "cmd" = Ok (JStr RPCCommand.AUTHORIZE) →
  prop payload "data" = Ok d → prop d "code" = Ok code →
  fetch env {| url := "https://streamkit.discord.com/overlay/token";
               method := "POST";
               body := JObj [("code", code)] |}
  = Some {| access_token := token |} →
  let w' := (onMessage env (Text data) w).2 in
  ∃ pre post n,
    trace w' = trace w ++ pre ++
      [HttpFetch {| url := "https://streamkit.discord.com/overlay/token";
                    method := "POST";
                    body := JObj [("code", code)] |};
       StorageSetItem "discord_access_token" token;
       SocketSend (frame_AUTHENTICATE token n)] ++ post ∧
    fetches pre = [] ∧ fetches post = [] ∧
    storage_writes post = [] ∧
    sends_of RPCCommand.AUTHENTICATE post = [] ∧
    cached_token w' = Some token ∧
    (∀ e, prop payload "evt" = Ok e → (e === RPCEvent.READY) = false → pre = []).
Proof.
  intros Hinit Hparse Hc Hd Hcode Hfetch w'. subst w'.
  destruct (initialised_inv w Hinit) as (ws & st & ts & Hs & Hst & Hts & Hkey).
  destruct (prop_defined payload "cmd" _ "evt" Hc) as [e He].
  unfold onMessage. rewrite Hparse. unfold dispatch.
  destruct (on_READY_ok env payload e w ws ts He Hs Hts) as (w1 & E1 & S1).
  rewrite (bind_Ok _ _ _ _ _ E1).
  destruct (steps_frame _ _ _ _ S1) as (Hthis & pre & Hpre & Qpre).
  rewrite <-Hthis in Hs, Hts.
  destruct (on_AUTHORIZE_fire env payload _ d code _ w1 ws ts
              Hc eq_refl Hd Hcode Hfetch Hs Hts) as (w2 & E2 & Htr2 & Hls2).
  rewrite (bind_Ok _ _ _ _ _ E2).
  match goal with |- context [(?m w2).2] =>
    assert (Hr : runs env fp_after_exchange m) by runs_chain;
    pose proof (Hr w2) as S3; clear Hr
  end.
  destruct (steps_frame _ _ _ _ S3) as (Hthis3 & post & Hpost & Qpost).
  exists pre, post, (uuid_v4 env (uuid_calls w1)).
  rewrite Hkey in Htr2, Hls2. simpl in Htr2.
  split; [by rewrite Hpost, Htr2, Hpre, <-!app_assoc|].
  split; [by apply (quiet_fetches _ _ Qpre)|].
  split; [by apply (quiet_fetches _ _ Qpost)|].
  split; [by apply (quiet_storage _ _ Qpost)|].
  split; [by apply (quiet_sends _ _ Qpost)|].
  split.
  - rewrite (steps_cached_token env _ _ _ eq_refl S3).
    unfold cached_token.
    assert (this w2 = this w1) as ->.
    { eapply steps_this, runs_result; [|exact E2].
      apply (runs_on_AUTHORIZE env fp_all), fp_le_all. }
    by rewrite Hts, Hls2, Hkey, lookup_insert_eq.
  - intros e' He' Hnot.
    rewrite (on_READY_skip env payload e' w He' Hnot) in E1.
    injection E1 as <-. rewrite <-(app_nil_r (trace w)) in Hpre at 1.
    by apply app_inv_head in Hpre.
Qed.

(** C4 (amended). On an initialised session, for every text frame whose
    payload has cmd = AUTHENTICATE, carries data.user and whose evt is not
    VOICE_CHANNEL_SELECT: exactly one GET_SELECTED_VOICE_CHANNEL command is
    sent, exactly one SUBSCRIBE command is sent and it is for the
    VOICE_CHANNEL_SELECT event, and the first store action is [setMe] with
    the payload's data.user. *)
Theorem authenticate_requests_channel env data payload e d user w :
  initialised w = true →
  JSON_parse env data = Some payload →
  prop payload "cmd" = Ok (JStr RPCCommand.AUTHENTICATE) →
  prop payload "evt" = Ok e → (e === RPCEvent.VOICE_CHANNEL_SELECT) = false →
  prop payload "data" = Ok d → prop d "user" = Ok user →
  ∃ new n1 n2 rest,
    trace (onMessage env (Text data) w).2 = trace w ++ new ∧
    sends_of RPCCommand.GET_SELECTED_VOICE_CHANNEL new
    = [frame_GET_SELECTED_VOICE_CHANNEL n1] ∧
    sends_of RPCCommand.SUBSCRIBE new = [frame_SUBSCRIBE_VOICE_CHANNEL_SELECT n2] ∧
    store_calls new = setMe user :: rest.
Proof.
  intros Hinit Hparse Hc He He' Hd Hu.
  destruct (initialised_inv w Hinit) as (ws & st & ts & Hs & Hst & Hts & Hkey).
  unfold onMessage. rewrite Hparse. unfold dispatch.
  destruct (on_READY_ok env payload e w ws ts He Hs Hts) as (w1 & E1 & S1).
  rewrite (bind_Ok _ _ _ _ _ E1).
  destruct (steps_frame _ _ _ _ S1) as (Hthis & pre & Hpre & Qpre).
  rewrite <-Hthis in Hs, Hst.
  rewrite (bind_Ok _ _ _ _ _ (on_AUTHORIZE_skip env payload _ w1 Hc eq_refl)).
  rewrite (bind_Ok _ _ _ _ _
             (on_GET_SELECTED_VOICE_CHANNEL_skip env payload _ w1 Hc eq_refl)).
  destruct (on_AUTHENTICATE_fire env payload _ d user w1 ws st
              Hc eq_refl Hd Hu Hs Hst) as (w2 & E2 & Htr2).
  rewrite (bind_Ok _ _ _ _ _ E2).
  tail_frame env fp_store_log w2 post Hpost Qpost.
  eexists _, _, _, (store_calls post).
  split; [by rewrite Hpost, Htr2, Hpre, <-!app_assoc|].
  rewrite !sends_of_app, !store_calls_app.
  rewrite !(quiet_sends _ _ Qpre), !(quiet_sends _ _ Qpost),
    (quiet_store _ _ Qpre) by done.
  done.
Qed.

(** The handler stops at the first branch that fails: a property of its
    outcome follows from the property at every point where it may stop. *)
Lemma bind_frame {A B} env fp (m : M A) (k : A → M B)
    (P : Result B * World → Prop) w0 w :
  steps env fp w0 w → runs env fp m →
  (∀ e w1, steps env fp w0 w1 → P (Throw e, w1)) →
  (∀ a w1, steps env fp w0 w1 → P (k a w1)) →
  P (bind m k w).
Proof.
  intros H0 Hm Hthrow Hok. unfold bind. specialize (Hm w).
  destruct (m w) as [[a|e] w1]; simpl in Hm.
  - apply Hok. by eapply steps_trans.
  - apply Hthrow. by eapply steps_trans.
Qed.

(** C5 (amended). For every text frame that parses to a payload: the
    handler writes the payload to the diagnostic log, once, exactly when it
    reaches line 193 without an uncaught failure and the payload's cmd is
    neither SUBSCRIBE nor AUTHENTICATE, whether or not another branch has
    handled the payload; otherwise it logs nothing. *)
Theorem log_unless_subscribe_or_authenticate env data payload w :
  JSON_parse env data = Some payload →
  let r := onMessage env (Text data) w in
  ∃ new, trace r.2 = trace w ++ new ∧
         console_logs new = if is_ok r.1 && logged payload then [payload] else [].
Proof.
  intros Hparse r. subst r. unfold onMessage. rewrite Hparse. unfold dispatch.
  set (P := λ rw : Result unit * World,
         ∃ new, trace rw.2 = trace w ++ new ∧
                console_logs new
                = if is_ok rw.1 && logged payload then [payload] else []).
  assert (Hthrow : ∀ e w1, steps env fp_no_log w w1 → P (Throw e, w1)).
  { intros e w1 S. destruct (steps_frame _ _ _ _ S) as (_ & new & Hnew & Q).
    exists new. split; [done|]. by apply (quiet_logs _ _ Q). }
  match goal with |- context [bind ?m ?k w] => change (P (bind m k w)) end.
  pose proof (steps_refl env fp_no_log w) as S0.
  revert S0. generalize w at 2 3 as w0. intros w0 S0.
  repeat (eapply bind_frame; [exact S0|runs_branch|exact Hthrow|];
          clear dependent w0; intros _ w0 S0).
  destruct (steps_frame _ _ _ _ S0) as (_ & new & Hnew & Q).
  unfold P, logged. destruct (prop payload "cmd") as [c|err] eqn:Hc.
  - rewrite (on_log_eval env payload c w0 Hc). simpl.
    destruct (includes_cmd c); simpl.
    + exists new. split; [done|]. by apply (quiet_logs _ _ Q).
    + exists (new ++ [ConsoleLog payload]).
      rewrite ?trace_apply_action, Hnew, <-app_assoc. split; [done|].
      rewrite console_logs_app, (quiet_logs _ _ Q) by done. done.
  - unfold on_log, bind, lift. rewrite Hc. simpl.
    exists new. split; [done|]. by apply (quiet_logs _ _ Q).
Qed.

Lemma token_exchange_succeeds env payload c d code :
  token_exchange_fails env payload = false →
  prop payload "cmd" = Ok c → prop payload "data" = Ok d → prop d "code" = Ok code →
  (c === RPCCommand.AUTHORIZE) = true → is_Some (fetch env (token_request code)).
Proof.
  unfold token_exchange_fails. intros H Hc Hd Hcode Hauth.
  rewrite Hc, Hd, Hcode, Hauth in H. simpl in H.
  destruct (fetch env (token_request code)); [by eexists|done].
Qed.

(** C6 (amended). On an initialised session, for every text frame whose
    payload has evt = SPEAKING_START ([talking] = true) or SPEAKING_STOP
    ([talking] = false) and carries user id [U]: the speaking branch performs
    one interaction and no other, the store action [setTalking U talking];
    and, unless the payload also carries cmd = AUTHORIZE and the token
    exchange of its code fails, the handler reaches that branch, its last
    store action being [setTalking U talking]. *)
Theorem speaking_sets_talking env data payload (talking : bool) d U w :
  initialised w = true →
  JSON_parse env data = Some payload →
  prop payload "evt"
  = Ok (JStr (if talking then RPCEvent.SPEAKING_START else RPCEvent.SPEAKING_STOP)) →
  prop payload "data" = Ok d → prop d "user_id" = Ok U →
  token_exchange_fails env payload = false →
  (∃ w', on_SPEAKING env payload w = (Ok tt, w') ∧
         trace w' = trace w ++ [StoreAction (setTalking U talking)]) ∧
  ∃ new pre,
    trace (onMessage env (Text data) w).2 = trace w ++ new ∧
    store_calls new = pre ++ [setTalking U talking].
Proof.
  intros Hinit Hparse He Hd HU Hex.
  destruct (initialised_inv w Hinit) as (ws & st & ts & Hs & Hst & Hts & Hkey).
  assert (Hfire : ∀ w0, store (this w0) = Some st →
            on_SPEAKING env payload w0
            = (Ok tt, apply_action env (AStore (setTalking U talking)) w0)).
  { intros w0 Hst0.
    rewrite (on_SPEAKING_fire env payload _ d U w0 st He) by (by destruct talking).
    by destruct talking. }
  split.
  { eexists. split; [by apply Hfire|]. by rewrite trace_apply_action. }
  destruct (prop_defined payload "evt" _ "cmd" He) as [c Hc].
  destruct (prop_defined d "user_id" _ "code" HU) as [code Hcode].
  destruct (prop_defined d "user_id" _ "id" HU) as [x Hx].
  destruct (prop_defined d "user_id" _ "user" HU) as [u Hu].
  pose proof (token_exchange_succeeds env payload c d code Hex Hc Hd Hcode) as Hf.
  unfold onMessage. rewrite Hparse. unfold dispatch.
  rewrite (bind_Ok _ _ _ _ _ (on_READY_skip env payload _ w He
             ltac:(by destruct talking))).
  destruct (on_AUTHORIZE_ok env payload c d code w ws ts Hc Hd Hcode Hf Hs Hts)
    as (w1 & E1 & S1).
  rewrite (bind_Ok _ _ _ _ _ E1).
  destruct (steps_frame _ _ _ _ S1) as (Hthis1 & n1 & Hn1 & Q1).
  rewrite <-Hthis1 in Hs, Hst.
  destruct (on_GET_SELECTED_VOICE_CHANNEL_ok env payload c d x w1 ws st Hc Hd Hx Hs Hst)
    as (w2 & E2 & S2).
  rewrite (bind_Ok _ _ _ _ _ E2).
  destruct (steps_frame _ _ _ _ S2) as (Hthis2 & n2 & Hn2 & Q2).
  rewrite <-Hthis2 in Hs, Hst.
  destruct (on_AUTHENTICATE_ok env payload c d u w2 ws st Hc Hd Hu Hs Hst)
    as (w3 & E3 & S3).
  rewrite (bind_Ok _ _ _ _ _ E3).
  destruct (steps_frame _ _ _ _ S3) as (Hthis3 & n3 & Hn3 & Q3).
  rewrite <-Hthis3 in Hs, Hst.
  rewrite (bind_Ok _ _ _ _ _ (Hfire w3 Hst)).
  set (w4 := apply_action env (AStore (setTalking U talking)) w3).
  assert (Htr4 : trace w4 = trace w3 ++ [StoreAction (setTalking U talking)])
    by apply trace_apply_action.
  assert (Hr : runs env fp_no_store
            (on_VOICE_STATE_DELETE env payload >>
             on_VOICE_STATE_CREATE env payload >>
             on_GET_CHANNEL env payload >>
             on_VOICE_CHANNEL_SELECT env payload >>
             on_log env payload)).
  { repeat (apply runs_bind; [|intros _]);
      first [ runs_branch
            | eapply runs_skip; intros;
              first [ eapply on_VOICE_STATE_DELETE_skip
                    | eapply on_VOICE_STATE_CREATE_skip
                    | eapply on_VOICE_CHANNEL_SELECT_skip ];
              [exact He|by destruct talking] ]. }
  destruct (steps_frame _ _ _ _ (Hr w4)) as (_ & n5 & Hn5 & Q5).
  eexists _, (store_calls (n1 ++ n2 ++ n3)).
  split; [by rewrite Hn5, Htr4, Hn3, Hn2, Hn1, <-!app_assoc|].
  rewrite !store_calls_app, (quiet_store _ _ Q5) by done.
  simpl. by rewrite ?app_nil_r, <-?app_assoc.
Qed.

Lemma runs_bind_lift {A B} env fp (r : Result A) (k : A → M B) :
  (∀ a, r = Ok a → runs env fp (k a)) → runs env fp (bind (lift r) k).
Proof.
  intros H w. unfold bind, lift. destruct r as [a|e]; [by apply H|constructor].
Qed.

Lemma prop_opt_truthy d k v : prop_opt d k = Ok v → truthy v = true → prop d k = Ok v.
Proof. destruct d; simpl; try done; by intros [= <-]. Qed.

(** Without a channel id the channel-select branch asks for no channel. *)
Lemma runs_on_VOICE_CHANNEL_SELECT_falsy env fp payload d ch :
  fp_reselect ⊑ fp →
  prop payload "data" = Ok d → prop_opt d "channel_id" = Ok ch → truthy ch = false →
  runs env fp (on_VOICE_CHANNEL_SELECT env payload).
Proof.
  intros Hle Hd Hch Hfalsy. unfold on_VOICE_CHANNEL_SELECT, requestUserChannel.
  apply runs_bind; [apply runs_lift|]. intros e.
  destruct (e === RPCEvent.VOICE_CHANNEL_SELECT); [|apply runs_ret].
  apply runs_bind; [apply runs_send; by apply Hle|]. intros _.
  apply runs_bind.
  { apply runs_store_call; [by apply Hle|].
    apply runs_bind; [apply runs_lift|]. intros ?. apply runs_lift. }
  intros _. apply runs_bind_lift. intros d' Hd'.
  assert (d' = d) as -> by congruence.
  apply runs_bind_lift. intros ch' Hch'.
  assert (ch' = ch) as -> by congruence.
  rewrite Hfalsy. apply runs_ret.
Qed.

(** C7 (amended). On an initialised session, for every text frame whose
    payload has evt = VOICE_CHANNEL_SELECT: if data.channel_id is truthy (as
    "42" is), the cmd is neither AUTHENTICATE nor GET_CHANNEL and no failed
    token exchange stops the handler first, then the last store action is
    [setCurrentChannel] with that channel id, exactly one
    GET_SELECTED_VOICE_CHANNEL command is sent, and exactly one GET_CHANNEL
    command is sent, with args channel_id equal to it; if data.channel_id is
    null, absent or otherwise falsy, no GET_CHANNEL command is sent. *)
Theorem voice_channel_select_requests_channel env data payload c d ch w :
  initialised w = true →
  JSON_parse env data = Some payload →
  prop payload "evt" = Ok (JStr RPCEvent.VOICE_CHANNEL_SELECT) →
  prop payload "cmd" = Ok c →
  prop payload "data" = Ok d → prop_opt d "channel_id" = Ok ch →
  let w' := (onMessage env (Text data) w).2 in
  (truthy ch = true →
   (c === RPCCommand.AUTHENTICATE) = false → (c === RPCCommand.GET_CHANNEL) = false →
   token_exchange_fails env payload = false →
   ∃ new pre n1 n2,
     trace w' = trace w ++ new ∧
     store_calls new = pre ++ [setCurrentChannel ch] ∧
     sends_of RPCCommand.GET_SELECTED_VOICE_CHANNEL new
     = [frame_GET_SELECTED_VOICE_CHANNEL n1] ∧
     sends_of RPCCommand.GET_CHANNEL new = [frame_GET_CHANNEL ch n2]) ∧
  (truthy ch = false →
   ∃ new, trace w' = trace w ++ new ∧ sends_of RPCCommand.GET_CHANNEL new = []).
Proof.
  intros Hinit Hparse He Hc Hd Hopt w'. subst w'.
  unfold onMessage. rewrite Hparse. unfold dispatch. split.
  - intros Htruthy Hc1 Hc2 Hex.
    pose proof (prop_opt_truthy _ _ _ Hopt Htruthy) as Hch.
    destruct (initialised_inv w Hinit) as (ws & st & ts & Hs & Hst & Hts & Hkey).
    destruct (prop_defined d "channel_id" _ "code" Hch) as [code Hcode].
    destruct (prop_defined d "channel_id" _ "id" Hch) as [x Hx].
    pose proof (token_exchange_succeeds env payload c d code Hex Hc Hd Hcode) as Hf.
    rewrite (bind_Ok _ _ _ _ _ (on_READY_skip env payload _ w He eq_refl)).
    destruct (on_AUTHORIZE_ok env payload c d code w ws ts Hc Hd Hcode Hf Hs Hts)
      as (w1 & E1 & S1).
    rewrite (bind_Ok _ _ _ _ _ E1).
    destruct (steps_frame _ _ _ _ S1) as (Hthis1 & l1 & Hl1 & Q1).
    rewrite <-Hthis1 in Hs, Hst.
    destruct (on_GET_SELECTED_VOICE_CHANNEL_ok env payload c d x w1 ws st
                Hc Hd Hx Hs Hst) as (w2 & E2 & S2).
    rewrite (bind_Ok _ _ _ _ _ E2).
    destruct (steps_frame _ _ _ _ S2) as (Hthis2 & l2 & Hl2 & Q2).
    rewrite <-Hthis2 in Hs, Hst.
    rewrite (bind_Ok _ _ _ _ _ (on_AUTHENTICATE_skip env payload c w2 Hc Hc1)).
    rewrite (bind_Ok _ _ _ _ _ (on_SPEAKING_skip env payload _ w2 He eq_refl eq_refl)).
    rewrite (bind_Ok _ _ _ _ _ (on_VOICE_STATE_DELETE_skip env payload _ w2 He eq_refl)).
    rewrite (bind_Ok _ _ _ _ _ (on_VOICE_STATE_CREATE_skip env payload _ w2 He eq_refl)).
    rewrite (bind_Ok _ _ _ _ _ (on_GET_CHANNEL_skip env payload c w2 Hc Hc2)).
    destruct (on_VOICE_CHANNEL_SELECT_fire env payload _ d ch w2 ws st
                He eq_refl Hd Hch Htruthy Hs Hst) as (w3 & E3 & Htr3).
    rewrite (bind_Ok _ _ _ _ _ E3).
    destruct (steps_frame _ _ _ _ (runs_on_log env fp_log payload (fp_le_refl _) w3))
      as (_ & l4 & Hl4 & Q4).
    eexists _, (store_calls (l1 ++ l2)), _, _.
    split; [by rewrite Hl4, Htr3, Hl2, Hl1, <-!app_assoc|].
    rewrite !sends_of_app, !store_calls_app.
    rewrite !(quiet_sends _ _ Q1), !(quiet_sends _ _ Q2), !(quiet_sends _ _ Q4),
      (quiet_store _ _ Q4) by done.
    simpl. by rewrite <-?app_assoc.
  - intros Hfalsy.
    match goal with |- context [(?m w).2] =>
      assert (Hr : runs env fp_no_GET_CHANNEL m)
    end.
    { repeat (apply runs_bind; [|intros _]);
        first [ runs_branch
              | eapply runs_on_VOICE_CHANNEL_SELECT_falsy; [fp_le|done..] ]. }
    destruct (steps_frame _ _ _ _ (Hr w)) as (_ & new & Hnew & Q).
    exists new. split; [done|]. by apply (quiet_sends _ _ Q).
Qed.

(** ** Runs of the session *)

Section Session.
Variable env : Env.

Lemma runs_dispatch payload : runs env fp_all (dispatch env payload).
Proof. unfold dispatch. runs_chain. Qed.

Lemma runs_onMessage event : runs env fp_all (onMessage env event).
Proof.
  destruct event as [data| | | |]; try apply runs_ret.
  simpl. destruct (JSON_parse env data); [apply runs_dispatch|apply runs_throw].
Qed.

Lemma exec_init w :
  let w' := (init env w).2 in
  currentChannelId (this w') = currentChannelId (this w) ∧
  trace w' = trace w ∧ uuid_calls w' = uuid_calls w.
Proof. unfold init. by destruct (WebSocket_connect env _ _). Qed.

Lemma nonces_snoc tr e :
  nonces (tr ++ [e])
  = nonces tr ++ match e with SocketSend p => [nonce p] | _ => [] end.
Proof.
  unfold nonces, all_sends. rewrite omap_app, fmap_app. by destruct e.
Qed.

Lemma drawn_apply_action a w ks :
  drawn env w ks → ∃ ks', drawn env (apply_action env a w) ks'.
Proof.
  intros (Hn & Hnd & Hlt).
  assert (Hlt' : Forall (λ k, k < S (uuid_calls w)) ks).
  { eapply Forall_impl; [exact Hlt|]. simpl. lia. }
  destruct a as [p| |k v|req|call|v].
  - exists (ks ++ [uuid_calls w]). split; [|split].
    + simpl. rewrite nonces_snoc, fmap_app. simpl. by rewrite Hn.
    + apply NoDup_app. split; [done|]. split; [|apply NoDup_singleton].
      intros k Hk ->%list_elem_of_singleton.
      rewrite Forall_forall in Hlt. specialize (Hlt _ Hk). simpl in Hlt. lia.
    + apply Forall_app. split; [done|]. apply Forall_singleton. simpl. lia.
  - by exists ks.
  - exists ks. split; [|done]. simpl. by rewrite nonces_snoc, app_nil_r.
  - exists ks. split; [|done]. simpl. by rewrite nonces_snoc, app_nil_r.
  - exists ks. split; [|done]. simpl. by rewrite nonces_snoc, app_nil_r.
  - exists ks. split; [|done]. simpl. by rewrite nonces_snoc, app_nil_r.
Qed.

Lemma drawn_steps fp w w' :
  steps env fp w w' → (∃ ks, drawn env w ks) → ∃ ks, drawn env w' ks.
Proof.
  induction 1 as [|a w w' _ _ IH]; [done|].
  intros [ks Hks]. apply IH. by eapply drawn_apply_action.
Qed.

Lemma drawn_exec op w :
  (∃ ks, drawn env w ks) → ∃ ks, drawn env (exec env op w).2 ks.
Proof.
  destruct op as [|event|c channelId]; simpl.
  - intros [ks (Hn & Hnd & Hlt)]. exists ks.
    destruct (exec_init w) as (_ & Htr & Hu). unfold drawn.
    by rewrite Htr, Hu.
  - apply (drawn_steps fp_all), runs_onMessage.
  - apply (drawn_steps fp_all), runs_channelEvents; done.
Qed.

Lemma drawn_run ops w :
  (∃ ks, drawn env w ks) → ∃ ks, drawn env (run env ops w) ks.
Proof.
  revert w. induction ops as [|op ops IH]; intros w Hw; [done|].
  simpl. by apply IH, drawn_exec.
Qed.

Lemma currentChannelId_exec op w :
  currentChannelId (this (exec env op w).2) = currentChannelId (this w).
Proof.
  destruct op as [|event|c channelId]; simpl.
  - apply exec_init.
  - f_equal. eapply steps_this, runs_onMessage.
  - f_equal. eapply (steps_this _ fp_all), runs_channelEvents; done.
Qed.

End Session.

(** C8. With a generator whose draws are pairwise distinct, after any
    sequence of operations of a session ([init], inbound frames, calls of
    [channelEvents]): every frame written to the socket carries a nonce, one
    of the draws made so far, and no two frames written carry the same
    nonce; this includes the per-event commands of [channelEvents]. *)
Theorem sent_nonces_are_fresh env ops :
  Inj (=) (=) (uuid_v4 env) →
  let w := run env ops new_World in
  Forall (λ frame, ∃ k, k < uuid_calls w ∧ nonce frame = Some (uuid_v4 env k))
         (all_sends (trace w)) ∧
  NoDup (nonces (trace w)).
Proof.
  intros Hinj w.
  destruct (drawn_run env ops new_World) as [ks (Hn & Hnd & Hlt)].
  { exists []. split; [done|]. split; [constructor|constructor]. }
  fold w in Hn, Hlt. split.
  - unfold nonces in Hn. revert Hlt Hn. generalize (all_sends (trace w)).
    clear Hnd. induction ks as [|k ks IH]; intros [|p l] Hlt; try done.
    intros [= Hp Hl]. apply Forall_cons in Hlt as [Hk Hlt].
    constructor; [by exists k|by apply IH].
  - rewrite Hn. apply NoDup_fmap_2; [|done].
    intros x y [= H]. by apply Hinj.
Qed.

(** C9. For every frame whose type is not Text, [onMessage] returns at
    once and leaves the whole world as it was: the manager and the store, the
    socket, the token store, and the trace (nothing sent, nothing logged). *)
Theorem non_text_frames_are_ignored env event w :
  is_Text event = false → onMessage env event w = (Ok tt, w).
Proof. by destruct event. Qed.

(** C10. The manager's own [currentChannelId] field is null in a new
    manager, no operation writes it, and so it is null after [init] and after
    every sequence of operations and inbound frames. The handler changes no
    field of the manager at all: a channel id leaves it only in the store
    actions and commands of its trace. *)
Theorem currentChannelId_stays_null env :
  currentChannelId new_SocketManager = JNull ∧
  (∀ op w, currentChannelId (this (exec env op w).2) = currentChannelId (this w)) ∧
  (∀ ops, currentChannelId (this (run env ops new_World)) = JNull) ∧
  (∀ event w, this (onMessage env event w).2 = this w).
Proof.
  split; [done|]. split; [apply currentChannelId_exec|].
  split; [|intros event w; eapply steps_this, runs_onMessage].
  intros ops.
  assert (H : ∀ w, currentChannelId (this (run env ops w)) = currentChannelId (this w)).
  { induction ops as [|op ops IH]; intros w; [done|].
    simpl. by rewrite IH, currentChannelId_exec. }
  by rewrite H.
Qed.

(** ** The statements on the sample session *)

Lemma tally_inj : Inj (=) (=) tally.
Proof.
  intros n. induction n as [|n IH]; intros [|m]; simpl; try done.
  intros [= H]. f_equal. by apply IH.
Qed.

Lemma ready_authenticates_or_authorizes_witness :
  ∃ new, trace (onMessage sample_env (Text "ready") (sample_world_token "tok0")).2
         = trace (sample_world_token "tok0") ++ new ∧
    let n := uuid_v4 sample_env (uuid_calls (sample_world_token "tok0")) in
    (∀ t, cached_token (sample_world_token "tok0") = Some t → t ≠ "" →
       sends_of RPCCommand.AUTHENTICATE new = [frame_AUTHENTICATE t n] ∧
       sends_of RPCCommand.AUTHORIZE new = []) ∧
    (cached_token (sample_world_token "tok0") = None ∨
     cached_token (sample_world_token "tok0") = Some "" →
       sends_of RPCCommand.AUTHORIZE new = [frame_AUTHORIZE n] ∧
       sends_of RPCCommand.AUTHENTICATE new = []).
Proof.
  apply (ready_authenticates_or_authorizes sample_env "ready"
           (JObj [("evt", JStr "READY")]) JUndefined (sample_world_token "tok0"));
    reflexivity.
Defined.

(** C1 as stated fails twice over: an empty cached token is held and yet
    AUTHORIZE is sent instead of AUTHENTICATE; and a READY payload that also
    carries cmd = AUTHORIZE gets an AUTHENTICATE command (from the code
    exchange) although no token was cached. *)
Lemma ready_counterexample :
  (let w := sample_world_token "" in
   let w' := (onMessage sample_env (Text "ready") w).2 in
   initialised w = true ∧
   JSON_parse sample_env "ready" = Some (JObj [("evt", JStr "READY")]) ∧
   cached_token w = Some "" ∧
   sends_of RPCCommand.AUTHENTICATE (trace w') = [] ∧
   sends_of RPCCommand.AUTHORIZE (trace w') = [frame_AUTHORIZE ""]) ∧
  (let w := sample_world in
   let w' := (onMessage sample_env (Text "ready+authorize") w).2 in
   initialised w = true ∧
   JSON_parse sample_env "ready+authorize"
   = Some (JObj [("cmd", JStr "AUTHORIZE"); ("evt", JStr "READY");
                 ("data", JObj [("code", JStr "c0de")])]) ∧
   cached_token w = None ∧
   sends_of RPCCommand.AUTHORIZE (trace w') = [frame_AUTHORIZE ""] ∧
   sends_of RPCCommand.AUTHENTICATE (trace w') = [frame_AUTHENTICATE "tok" "I"]).
Proof. by vm_compute. Qed.

Lemma selected_voice_channel_subscribes_witness :
  SUBSCRIBABLE_EVENTS
  = [RPCEvent.SPEAKING_START; RPCEvent.SPEAKING_STOP; RPCEvent.VOICE_STATE_CREATE;
     RPCEvent.VOICE_STATE_DELETE; RPCEvent.VOICE_STATE_DELETE] ∧
  ∃ new rest,
    trace (onMessage sample_env (Text "selected") sample_world).2
    = trace sample_world ++ new ∧
    Forall2 (λ e frame, ∃ n, frame = frame_channel_event RPCCommand.SUBSCRIBE
                                       (JStr "42") e n)
            SUBSCRIBABLE_EVENTS (sends_of RPCCommand.SUBSCRIBE new) ∧
    store_calls new
    = setUsers (JArr [JObj [("nick", JStr "ann")]])
        :: setCurrentChannel (JStr "42") :: rest.
Proof.
  apply (selected_voice_channel_subscribes sample_env "selected"
           (JObj [("cmd", JStr "GET_SELECTED_VOICE_CHANNEL");
                  ("data", JObj [("id", JStr "42");
                                 ("voice_states", JArr [JObj [("nick", JStr "ann")]])])])
           (JObj [("id", JStr "42");
                  ("voice_states", JArr [JObj [("nick", JStr "ann")]])]));
    reflexivity.
Defined.

Lemma authorize_exchanges_code_witness :
  let w' := (onMessage sample_env (Text "authorize") sample_world).2 in
  ∃ pre post n,
    trace w' = trace sample_world ++ pre ++
      [HttpFetch {| url := "https://streamkit.discord.com/overlay/token";
                    method := "POST";
                    body := JObj [("code", JStr "c0de")] |};
       StorageSetItem "discord_access_token" "tok";
       SocketSend (frame_AUTHENTICATE "tok" n)] ++ post ∧
    fetches pre = [] ∧ fetches post = [] ∧
    storage_writes post = [] ∧
    sends_of RPCCommand.AUTHENTICATE post = [] ∧
    cached_token w' = Some "tok" ∧
    (∀ e, prop (JObj [("cmd", JStr "AUTHORIZE");
                      ("data", JObj [("code", JStr "c0de")])]) "evt" = Ok e →
          (e === RPCEvent.READY) = false → pre = []).
Proof.
  apply (authorize_exchanges_code sample_env "authorize"
           (JObj [("cmd", JStr "AUTHORIZE"); ("data", JObj [("code", JStr "c0de")])])
           (JObj [("code", JStr "c0de")]));
    reflexivity.
Defined.

Lemma authenticate_requests_channel_witness :
  ∃ new n1 n2 rest,
    trace (onMessage sample_env (Text "authenticate") sample_world).2
    = trace sample_world ++ new ∧
    sends_of RPCCommand.GET_SELECTED_VOICE_CHANNEL new
    = [frame_GET_SELECTED_VOICE_CHANNEL n1] ∧
    sends_of RPCCommand.SUBSCRIBE new = [frame_SUBSCRIBE_VOICE_CHANNEL_SELECT n2] ∧
    store_calls new = setMe (JObj [("id", JStr "7")]) :: rest.
Proof.
  apply (authenticate_requests_channel sample_env "authenticate"
           (JObj [("cmd", JStr "AUTHENTICATE");
                  ("data", JObj [("user", JObj [("id", JStr "7")])])])
           JUndefined (JObj [("user", JObj [("id", JStr "7")])]));
    reflexivity.
Defined.

(** C4 as stated fails: an AUTHENTICATE acknowledgement that also carries
    evt = VOICE_CHANNEL_SELECT requests the selected voice channel twice. *)
Lemma authenticate_counterexample :
  let w' := (onMessage sample_env (Text "authenticate+select") sample_world).2 in
  initialised sample_world = true ∧
  JSON_parse sample_env "authenticate+select"
  = Some (JObj [("cmd", JStr "AUTHENTICATE"); ("evt", JStr "VOICE_CHANNEL_SELECT");
                ("data", JObj [("user", JObj [("id", JStr "7")]);
                               ("channel_id", JStr "42")])]) ∧
  sends_of RPCCommand.GET_SELECTED_VOICE_CHANNEL (trace w')
  = [frame_GET_SELECTED_VOICE_CHANNEL ""; frame_GET_SELECTED_VOICE_CHANNEL "II"].
Proof. by vm_compute. Qed.

Lemma log_unless_subscribe_or_authenticate_witness :
  let r := onMessage sample_env (Text "authenticate") sample_world in
  ∃ new, trace r.2 = trace sample_world ++ new ∧
         console_logs new
         = if is_ok r.1 &&
              logged (JObj [("cmd", JStr "AUTHENTICATE");
                            ("data", JObj [("user", JObj [("id", JStr "7")])])])
           then [JObj [("cmd", JStr "AUTHENTICATE");
                       ("data", JObj [("user", JObj [("id", JStr "7")])])]]
           else [].
Proof.
  apply (log_unless_subscribe_or_authenticate sample_env "authenticate"). reflexivity.
Defined.

(** C5 as stated fails: payloads handled by the READY, SPEAKING_START and
    GET_SELECTED_VOICE_CHANNEL branches are logged all the same. *)
Lemma log_counterexample :
  (let w' := (onMessage sample_env (Text "ready") sample_world).2 in
   sends_of RPCCommand.AUTHORIZE (trace w') = [frame_AUTHORIZE ""] ∧
   console_logs (trace w') = [JObj [("evt", JStr "READY")]]) ∧
  (let w' := (onMessage sample_env (Text "speaking_start") sample_world).2 in
   store_calls (trace w') = [setTalking (JStr "7") true] ∧
   console_logs (trace w')
   = [JObj [("evt", JStr "SPEAKING_START"); ("data", JObj [("user_id", JStr "7")])]]) ∧
  (let w' := (onMessage sample_env (Text "selected") sample_world).2 in
   store_calls (trace w')
   = [setUsers (JArr [JObj [("nick", JStr "ann")]]); setCurrentChannel (JStr "42")] ∧
   length (console_logs (trace w')) = 1).
Proof. by vm_compute. Qed.

Lemma speaking_sets_talking_witness :
  (∃ w', on_SPEAKING sample_env
           (JObj [("evt", JStr "SPEAKING_START");
                  ("data", JObj [("user_id", JStr "7")])]) sample_world
         = (Ok tt, w') ∧
         trace w' = trace sample_world ++ [StoreAction (setTalking (JStr "7") true)]) ∧
  ∃ new pre,
    trace (onMessage sample_env (Text "speaking_start") sample_world).2
    = trace sample_world ++ new ∧
    store_calls new = pre ++ [setTalking (JStr "7") true].
Proof.
  apply (speaking_sets_talking sample_env "speaking_start"
           (JObj [("evt", JStr "SPEAKING_START");
                  ("data", JObj [("user_id", JStr "7")])])
           true (JObj [("user_id", JStr "7")]));
    reflexivity.
Defined.

(** C6 as stated fails: when the payload also carries cmd = AUTHORIZE and
    the token endpoint rejects its code, the handler stops before the
    speaking branch and the flag is not set. *)
Lemma speaking_counterexample :
  let r := onMessage sample_env (Text "authorize+speaking_start") sample_world in
  initialised sample_world = true ∧
  JSON_parse sample_env "authorize+speaking_start"
  = Some (JObj [("cmd", JStr "AUTHORIZE"); ("evt", JStr "SPEAKING_START");
                ("data", JObj [("code", JStr "stale"); ("user_id", JStr "7")])]) ∧
  r.1 = Throw FetchError ∧
  store_calls (trace r.2) = [].
Proof. by vm_compute. Qed.

Lemma voice_channel_select_requests_channel_witness :
  (∃ new pre n1 n2,
     trace (onMessage sample_env (Text "select") sample_world).2
     = trace sample_world ++ new ∧
     store_calls new = pre ++ [setCurrentChannel (JStr "42")] ∧
     sends_of RPCCommand.GET_SELECTED_VOICE_CHANNEL new
     = [frame_GET_SELECTED_VOICE_CHANNEL n1] ∧
     sends_of RPCCommand.GET_CHANNEL new = [frame_GET_CHANNEL (JStr "42") n2]) ∧
  (∃ new,
     trace (onMessage sample_env (Text "select_none") sample_world).2
     = trace sample_world ++ new ∧
     sends_of RPCCommand.GET_CHANNEL new = []).
Proof.
  split.
  - apply (voice_channel_select_requests_channel sample_env "select"
             (JObj [("evt", JStr "VOICE_CHANNEL_SELECT");
                    ("data", JObj [("channel_id", JStr "42")])])
             JUndefined (JObj [("channel_id", JStr "42")]) (JStr "42") sample_world);
      reflexivity.
  - apply (voice_channel_select_requests_channel sample_env "select_none"
             (JObj [("evt", JStr "VOICE_CHANNEL_SELECT");
                    ("data", JObj [("channel_id", JNull)])])
             JUndefined (JObj [("channel_id", JNull)]) JNull sample_world);
      reflexivity.
Defined.

(** C7 as stated fails: a channel-select event that also carries
    cmd = GET_CHANNEL requests the selected voice channel twice. *)
Lemma voice_channel_select_counterexample :
  let w' := (onMessage sample_env (Text "channel+select") sample_world).2 in
  initialised sample_world = true ∧
  JSON_parse sample_env "channel+select"
  = Some (JObj [("cmd", JStr "GET_CHANNEL"); ("evt", JStr "VOICE_CHANNEL_SELECT");
                ("data", JObj [("channel_id", JStr "42")])]) ∧
  sends_of RPCCommand.GET_SELECTED_VOICE_CHANNEL (trace w')
  = [frame_GET_SELECTED_VOICE_CHANNEL ""; frame_GET_SELECTED_VOICE_CHANNEL "I"].
Proof. by vm_compute. Qed.

Lemma sent_nonces_are_fresh_witness :
  let w := run sample_env
             [OpInit; OpOnMessage (Text "ready"); OpOnMessage (Text "authorize");
              OpOnMessage (Text "selected");
              OpChannelEvents RPCCommand.UNSUBSCRIBE (JStr "42")]
             new_World in
  Forall (λ frame, ∃ k, k < uuid_calls w ∧ nonce frame = Some (uuid_v4 sample_env k))
         (all_sends (trace w)) ∧
  NoDup (nonces (trace w)).
Proof. apply (sent_nonces_are_fresh sample_env), tally_inj. Defined.

Lemma non_text_frames_are_ignored_witness :
  onMessage sample_env (Binary [1; 2]%Z) sample_world = (Ok tt, sample_world).
Proof. apply (non_text_frames_are_ignored sample_env). reflexivity. Defined.

(** * Further properties of the manager *)

Lemma no_command_inv c :
  no_command c = true →
  (c === RPCCommand.AUTHORIZE) = false ∧
  (c === RPCCommand.GET_SELECTED_VOICE_CHANNEL) = false ∧
  (c === RPCCommand.AUTHENTICATE) = false ∧
  (c === RPCCommand.GET_CHANNEL) = false.
Proof.
  unfold no_command. rewrite !andb_true_iff, !negb_true_iff. tauto.
Qed.

Lemma no_event_inv e :
  no_event e = true →
  (e === RPCEvent.READY) = false ∧
  (e === RPCEvent.SPEAKING_START) = false ∧
  (e === RPCEvent.SPEAKING_STOP) = false ∧
  (e === RPCEvent.VOICE_STATE_DELETE) = false ∧
  (e === RPCEvent.VOICE_STATE_CREATE) = false ∧
  (e === RPCEvent.VOICE_CHANNEL_SELECT) = false.
Proof.
  unfold no_event. rewrite !andb_true_iff, !negb_true_iff. tauto.
Qed.

Lemma localStorage_apply_action env a w :
  localStorage (apply_action env a w) = storage_after a (localStorage w).
Proof. by destruct a. Qed.

Lemma E_bind_Throw {A B} (m : M A) (k : A → M B) w e w1 :
  m w = (Throw e, w1) → bind m k w = (Throw e, w1).
Proof. intros H. unfold bind. by rewrite H. Qed.

Lemma prop_nullish v k : nullish v = true → prop v k = Throw TypeError.
Proof. by destruct v. Qed.

Lemma E_lift_nullish v k w :
  nullish v = true → lift (prop v k) w = (Throw TypeError, w).
Proof. intros H. unfold lift. by rewrite prop_nullish. Qed.

Lemma E_store_call_Throw env arg action w st e :
  store (this w) = Some st → arg w = (Throw e, w) →
  store_call env arg action w = (Throw e, w).
Proof. intros H Ha. unfold store_call, bind, get_this. by rewrite H, Ha. Qed.

(** Tests of the handler, decided from the facts in the context or, on
    closed values, by computation. *)
Ltac ev_test :=
  match goal with
  | H : ?b = _ |- context [if ?b then _ else _] => rewrite H
  | H : ?b = _ |- context [if negb ?b then _ else _] => rewrite H; cbn [negb]
  | H1 : ?a = _, H2 : ?b = _ |- context [if ?a || ?b then _ else _] =>
      rewrite H1, H2; cbn [orb]
  | H : ?a = true |- context [if ?a || _ then _ else _] => rewrite H; cbn [orb]
  | |- context [if ?b then _ else _] =>
      lazymatch b with
      | true => fail
      | false => fail
      | _ =>
          let v := eval vm_compute in b in
          match v with
          | true => change b with true
          | false => change b with false
          end
      end
  end.

(** Runs the whole handler on a payload whose tests are in the context. *)
Ltac ev_all :=
  cbv beta zeta iota;
  first
    [ ev_test; ev_all
    | lazymatch goal with |- bind _ _ _ = _ => eapply E_bind; [ev_all|ev_all] end
    | lazymatch goal with
      | |- store_call _ _ _ _ = _ =>
          eapply E_store_call; [rewrite ?this_apply_action; eassumption|ev_all]
      end
    | ev_atom ].

(** The same, up to the first property read that throws. *)
Ltac ev_fail :=
  cbv beta zeta iota;
  first
    [ ev_test; ev_fail
    | lazymatch goal with
      | |- bind _ _ _ = _ =>
          first [eapply E_bind; [ev_all|ev_fail] | eapply E_bind_Throw; ev_fail]
      end
    | lazymatch goal with
      | |- store_call _ _ _ _ = _ =>
          eapply E_store_call_Throw; [rewrite ?this_apply_action; eassumption|ev_fail]
      end
    | apply E_lift_nullish; eassumption ].

Ltac unfold_handler :=
  unfold onMessage, dispatch, on_READY, on_AUTHORIZE, on_GET_SELECTED_VOICE_CHANNEL,
    on_AUTHENTICATE, on_SPEAKING, on_VOICE_STATE_DELETE, on_VOICE_STATE_CREATE,
    on_GET_CHANNEL, on_VOICE_CHANNEL_SELECT, on_log, login, authenticate,
    requestUserChannel.

(** X1. A payload whose cmd and evt match no branch changes nothing but
    the diagnostic log: it is logged once, and not even that when its cmd is
    SUBSCRIBE. This needs no initialised session; payloads that are numbers,
    strings or arrays fall under it, all their properties being undefined. *)
Theorem unmatched_payload_is_only_logged env data payload c e w :
  JSON_parse env data = Some payload →
  prop payload "cmd" = Ok c → prop payload "evt" = Ok e →
  no_command c = true → no_event e = true →
  onMessage env (Text data) w
  = (Ok tt, if c === RPCCommand.SUBSCRIBE then w else emit (ConsoleLog payload) w).
Proof.
  intros Hparse Hc He (C1 & C2 & C3 & C4)%no_command_inv
    (E1 & E2 & E3 & E4 & E5 & E6)%no_event_inv.
  assert (Hinc : includes_cmd c = (c === RPCCommand.SUBSCRIBE)).
  { unfold includes_cmd. by rewrite C3, orb_false_r. }
  unfold_handler. rewrite Hparse.
  destruct (c === RPCCommand.SUBSCRIBE) eqn:Hsub; ev_all.
Qed.

(** X2. A GET_CHANNEL response with no event tag makes the handler send one
    GET_SELECTED_VOICE_CHANNEL command and log the payload, and nothing else:
    no store action, no storage write. *)
Theorem get_channel_response_rerequests env data payload e w :
  initialised w = true →
  JSON_parse env data = Some payload →
  prop payload "cmd" = Ok (JStr RPCCommand.GET_CHANNEL) →
  prop payload "evt" = Ok e → no_event e = true →
  ∃ w', onMessage env (Text data) w = (Ok tt, w') ∧
        trace w' = trace w ++
          [SocketSend (frame_GET_SELECTED_VOICE_CHANNEL (uuid_v4 env (uuid_calls w)));
           ConsoleLog payload] ∧
        localStorage w' = localStorage w.
Proof.
  intros Hinit Hparse Hc He (E1 & E2 & E3 & E4 & E5 & E6)%no_event_inv.
  destruct (initialised_inv w Hinit) as (ws & st & ts & Hs & Hst & Hts & Hkey).
  eexists. split; [unfold_handler; rewrite Hparse; ev_all|].
  split; [by trace_of|by rewrite !localStorage_apply_action].
Qed.

(** X3. A VOICE_STATE_DELETE event carrying data.user.id = [U] makes exactly
    one store action, [removeUser U], followed by the log entry of line 193;
    nothing is sent and no identifier is drawn. *)
Theorem voice_state_delete_removes_user env data payload c d u U w :
  initialised w = true →
  JSON_parse env data = Some payload →
  prop payload "evt" = Ok (JStr RPCEvent.VOICE_STATE_DELETE) →
  prop payload "cmd" = Ok c → no_command c = true →
  prop payload "data" = Ok d → prop d "user" = Ok u → prop u "id" = Ok U →
  ∃ w', onMessage env (Text data) w = (Ok tt, w') ∧
        trace w' = trace w ++ StoreAction (removeUser U) :: log_of payload c ∧
        localStorage w' = localStorage w ∧ uuid_calls w' = uuid_calls w.
Proof.
  intros Hinit Hparse He Hc (C1 & C2 & C3 & C4)%no_command_inv Hd Hu HU.
  destruct (initialised_inv w Hinit) as (ws & st & ts & Hs & Hst & Hts & Hkey).
  unfold log_of. destruct (includes_cmd c) eqn:Hinc.
  - eexists. split; [unfold_handler; rewrite Hparse; ev_all|].
    split; [by trace_of|]. by rewrite !localStorage_apply_action, !uuid_calls_apply_action.
  - eexists. split; [unfold_handler; rewrite Hparse; ev_all|].
    split; [by trace_of|]. by rewrite !localStorage_apply_action, !uuid_calls_apply_action.
Qed.

(** X4. A VOICE_STATE_CREATE event makes exactly one store action,
    [addUser] with the payload's whole data (whatever it is, undefined
    included), followed by the log entry of line 193; nothing is sent. *)
Theorem voice_state_create_adds_user env data payload c d w :
  initialised w = true →
  JSON_parse env data = Some payload →
  prop payload "evt" = Ok (JStr RPCEvent.VOICE_STATE_CREATE) →
  prop payload "cmd" = Ok c → no_command c = true →
  prop payload "data" = Ok d →
  ∃ w', onMessage env (Text data) w = (Ok tt, w') ∧
        trace w' = trace w ++ StoreAction (addUser d) :: log_of payload c ∧
        localStorage w' = localStorage w ∧ uuid_calls w' = uuid_calls w.
Proof.
  intros Hinit Hparse He Hc (C1 & C2 & C3 & C4)%no_command_inv Hd.
  destruct (initialised_inv w Hinit) as (ws & st & ts & Hs & Hst & Hts & Hkey).
  unfold log_of. destruct (includes_cmd c) eqn:Hinc.
  - eexists. split; [unfold_handler; rewrite Hparse; ev_all|].
    split; [by trace_of|]. by rewrite !localStorage_apply_action, !uuid_calls_apply_action.
  - eexists. split; [unfold_handler; rewrite Hparse; ev_all|].
    split; [by trace_of|]. by rewrite !localStorage_apply_action, !uuid_calls_apply_action.
Qed.

(** X5. The whole effect of a VOICE_CHANNEL_SELECT event that carries
    data.channel_id = [ch], in order: one GET_SELECTED_VOICE_CHANNEL command,
    the store action [setCurrentChannel ch] (with null when the user left the
    channel), one GET_CHANNEL command for [ch] only if [ch] is truthy, and the
    log entry of line 193. *)
Theorem voice_channel_select_effects env data payload c d ch w :
  initialised w = true →
  JSON_parse env data = Some payload →
  prop payload "evt" = Ok (JStr RPCEvent.VOICE_CHANNEL_SELECT) →
  prop payload "cmd" = Ok c → no_command c = true →
  prop payload "data" = Ok d → prop d "channel_id" = Ok ch →
  ∃ w', onMessage env (Text data) w = (Ok tt, w') ∧
        trace w' = trace w ++
          [SocketSend (frame_GET_SELECTED_VOICE_CHANNEL (uuid_v4 env (uuid_calls w)));
           StoreAction (setCurrentChannel ch)] ++
          (if truthy ch
           then [SocketSend (frame_GET_CHANNEL ch (uuid_v4 env (S (uuid_calls w))))]
           else []) ++
          log_of payload c.
Proof.
  intros Hinit Hparse He Hc (C1 & C2 & C3 & C4)%no_command_inv Hd Hch.
  destruct (initialised_inv w Hinit) as (ws & st & ts & Hs & Hst & Hts & Hkey).
  unfold log_of. destruct (includes_cmd c) eqn:Hinc, (truthy ch) eqn:Htr.
  all: eexists; (split; [unfold_handler; rewrite Hparse; ev_all|by trace_of]).
Qed.

(** X6. A payload without data (undefined or null) that is an AUTHORIZE or
    GET_SELECTED_VOICE_CHANNEL response, or a SPEAKING_START, SPEAKING_STOP or
    VOICE_STATE_DELETE event, makes the handler fail with a TypeError before
    any effect: no request, no frame, no store action, no log. *)
Theorem payload_without_data_fails_first env data payload c e d w :
  initialised w = true →
  JSON_parse env data = Some payload →
  prop payload "cmd" = Ok c → prop payload "evt" = Ok e →
  prop payload "data" = Ok d → nullish d = true →
  (e === RPCEvent.READY) = false →
  (c === RPCCommand.AUTHORIZE) || (c === RPCCommand.GET_SELECTED_VOICE_CHANNEL) = true ∨
  (no_command c = true ∧
   (e === RPCEvent.SPEAKING_START) || (e === RPCEvent.SPEAKING_STOP)
   || (e === RPCEvent.VOICE_STATE_DELETE) = true) →
  onMessage env (Text data) w = (Throw TypeError, w).
Proof.
  intros Hinit Hparse Hc He Hd Hnull E1 Hcase.
  destruct (initialised_inv w Hinit) as (ws & st & ts & Hs & Hst & Hts & Hkey).
  unfold_handler. rewrite Hparse.
  destruct Hcase as [Hcmd|[(C1 & C2 & C3 & C4)%no_command_inv Hevt]].
  - destruct (c === RPCCommand.AUTHORIZE) eqn:C1.
    + ev_fail.
    + simpl in Hcmd. ev_fail.
  - destruct (e === RPCEvent.SPEAKING_START) eqn:E2; [ev_fail|].
    destruct (e === RPCEvent.SPEAKING_STOP) eqn:E3; [ev_fail|].
    simpl in Hevt. ev_fail.
Qed.

(** X7. An AUTHENTICATE acknowledgement without data fails with a TypeError
    only after both commands of the branch are on the wire: the
    GET_SELECTED_VOICE_CHANNEL request and the SUBSCRIBE to
    VOICE_CHANNEL_SELECT are sent, [setMe] is not called. *)
Theorem authenticate_without_data env data payload e d w :
  initialised w = true →
  JSON_parse env data = Some payload →
  prop payload "cmd" = Ok (JStr RPCCommand.AUTHENTICATE) →
  prop payload "evt" = Ok e → (e === RPCEvent.READY) = false →
  prop payload "data" = Ok d → nullish d = true →
  ∃ w', onMessage env (Text data) w = (Throw TypeError, w') ∧
        trace w' = trace w ++
          [SocketSend (frame_GET_SELECTED_VOICE_CHANNEL (uuid_v4 env (uuid_calls w)));
           SocketSend (frame_SUBSCRIBE_VOICE_CHANNEL_SELECT
                         (uuid_v4 env (S (uuid_calls w))))].
Proof.
  intros Hinit Hparse Hc He E1 Hd Hnull.
  destruct (initialised_inv w Hinit) as (ws & st & ts & Hs & Hst & Hts & Hkey).
  eexists. split; [unfold_handler; rewrite Hparse; ev_fail|]. by trace_of.
Qed.

(** X8. A VOICE_CHANNEL_SELECT event without data fails with a TypeError
    after the GET_SELECTED_VOICE_CHANNEL re-request is sent: the current
    channel is not updated and nothing is logged. *)
Theorem voice_channel_select_without_data env data payload c d w :
  initialised w = true →
  JSON_parse env data = Some payload →
  prop payload "evt" = Ok (JStr RPCEvent.VOICE_CHANNEL_SELECT) →
  prop payload "cmd" = Ok c → no_command c = true →
  prop payload "data" = Ok d → nullish d = true →
  ∃ w', onMessage env (Text data) w = (Throw TypeError, w') ∧
        trace w' = trace w ++
          [SocketSend (frame_GET_SELECTED_VOICE_CHANNEL (uuid_v4 env (uuid_calls w)))].
Proof.
  intros Hinit Hparse He Hc (C1 & C2 & C3 & C4)%no_command_inv Hd Hnull.
  destruct (initialised_inv w Hinit) as (ws & st & ts & Hs & Hst & Hts & Hkey).
  eexists. split; [unfold_handler; rewrite Hparse; ev_fail|]. by trace_of.
Qed.

(** X9. The token store round trip: after [setAccessToken token] the getter
    reads [token]; every other key of local storage is untouched; and a second
    write replaces the first. *)
Theorem token_store_round_trip env token w ts :
  tokenStore (this w) = Some ts →
  let w' := (setAccessToken env token w).2 in
  accessToken w' = (Ok (Some token), w') ∧
  (∀ k, k ≠ TokenStore.key ts → localStorage w' !! k = localStorage w !! k) ∧
  ∀ token2, accessToken (setAccessToken env token2 w').2
            = (Ok (Some token2), (setAccessToken env token2 w').2).
Proof.
  intros Hts w'. subst w'.
  assert (Hset : ∀ t w0, tokenStore (this w0) = Some ts →
            accessToken (setAccessToken env t w0).2
            = (Ok (Some t), (setAccessToken env t w0).2)).
  { intros t w0 H0. rewrite (E_setAccessToken env t w0 ts H0). cbn [snd].
    erewrite E_accessToken by (rewrite this_apply_action; exact H0). 
    by rewrite localStorage_apply_action; cbn [storage_after]; rewrite lookup_insert_eq. }
  split; [by apply Hset|]. split.
  - intros k Hk. rewrite (E_setAccessToken env token w ts Hts). cbn [snd].
    rewrite localStorage_apply_action. cbn [storage_after]. by rewrite lookup_insert_ne.
  - intros token2. apply Hset.
    rewrite (E_setAccessToken env token w ts Hts). cbn [snd].
    by rewrite this_apply_action.
Qed.

(** X10. On a connected manager [channelEvents c channelId] writes exactly
    five frames, of command [c] (SUBSCRIBE or UNSUBSCRIBE alike) and scoped to
    [channelId], one per entry of the event list in order, voice-state-delete
    twice. It draws ten identifiers: the one it puts in each payload literal
    is overwritten by the one [send] draws, so the frames carry every second
    draw. *)
Theorem channelEvents_frames env c channelId w ws :
  socket (this w) = Some ws →
  let n i := uuid_v4 env (i + uuid_calls w) in
  ∃ w', channelEvents env c channelId w = (Ok tt, w') ∧
        trace w' = trace w ++
          [SocketSend (frame_channel_event c channelId RPCEvent.SPEAKING_START (n 1));
           SocketSend (frame_channel_event c channelId RPCEvent.SPEAKING_STOP (n 3));
           SocketSend (frame_channel_event c channelId RPCEvent.VOICE_STATE_CREATE (n 5));
           SocketSend (frame_channel_event c channelId RPCEvent.VOICE_STATE_DELETE (n 7));
           SocketSend (frame_channel_event c channelId RPCEvent.VOICE_STATE_DELETE (n 9))] ∧
        uuid_calls w' = 10 + uuid_calls w ∧
        localStorage w' = localStorage w ∧ this w' = this w.
Proof.
  intros Hs n. subst n. eexists. split.
  - unfold channelEvents. simpl forEach. ev.
  - split; [by trace_of|]. split; [by rewrite !uuid_calls_apply_action|].
    split; [by rewrite !localStorage_apply_action|by rewrite !this_apply_action].
Qed.

Lemma E_send_None env payload w :
  socket (this w) = None → send env payload w = (Ok tt, w).
Proof. intros H. unfold send, bind, get_this. by rewrite H. Qed.

(** X11. Without a socket (before [init]) [channelEvents] writes nothing
    and fails nothing, yet still draws the five identifiers of its payload
    literals. *)
Theorem channelEvents_without_socket env c channelId w :
  socket (this w) = None →
  ∃ w', channelEvents env c channelId w = (Ok tt, w') ∧
        trace w' = trace w ∧ uuid_calls w' = 5 + uuid_calls w ∧
        localStorage w' = localStorage w ∧ this w' = this w.
Proof.
  intros Hs. eexists. split.
  - unfold channelEvents. simpl forEach.
    repeat (eapply E_bind;
            [eapply E_bind; [reflexivity|];
             apply E_send_None; by rewrite ?this_apply_action|]).
    reflexivity.
  - split; [by rewrite !trace_apply_action, <-!app_assoc, app_nil_r|].
    split; [by rewrite !uuid_calls_apply_action|].
    split; [by rewrite !localStorage_apply_action|by rewrite !this_apply_action].
Qed.

(** X12. [init] sets the store handle and a token store before it connects,
    to ws://127.0.0.1:6463/?v=1&client_id=207646673902501888 with origin
    https://streamkit.discord.com. If the connection succeeds the session is
    initialised; if it is refused, [init] fails and leaves the socket as it
    was, the store and token store already set. Either way nothing is sent
    and local storage is not touched. *)
Theorem init_outcomes env w :
  let r := init env w in
  store (this r.2) = Some appStore_getState ∧
  tokenStore (this r.2) = Some TokenStore.new ∧
  trace r.2 = trace w ∧ localStorage r.2 = localStorage w ∧
  uuid_calls r.2 = uuid_calls w ∧
  match WebSocket_connect env
          "ws://127.0.0.1:6463/?v=1&client_id=207646673902501888"
          "https://streamkit.discord.com" with
  | Some ws => r.1 = Ok tt ∧ socket (this r.2) = Some ws ∧ initialised r.2 = true
  | None => r.1 = Throw ConnectError ∧ socket (this r.2) = socket (this w)
  end.
Proof.
  intros r. subst r. unfold init.
  change (WEBSOCKET_URL ++ "/?v=1&client_id=" ++ STREAM_KIT_APP_ID)%string
    with "ws://127.0.0.1:6463/?v=1&client_id=207646673902501888".
  change STREAMKIT_URL with "https://streamkit.discord.com".
  by destruct (WebSocket_connect env _ _).
Qed.

(** X13. A text frame that is not JSON fails with a SyntaxError, and one that
    parses to null fails with a TypeError at the first property read; in both
    cases before any effect. *)
Theorem unreadable_frame_fails env data w :
  (JSON_parse env data = None →
   onMessage env (Text data) w = (Throw SyntaxError, w)) ∧
  (∀ payload, JSON_parse env data = Some payload → nullish payload = true →
     onMessage env (Text data) w = (Throw TypeError, w)).
Proof.
  split.
  - intros H. unfold onMessage. by rewrite H.
  - intros payload H Hnull. unfold onMessage. rewrite H.
    unfold dispatch, on_READY. apply E_bind_Throw, E_bind_Throw.
    unfold lift. by rewrite prop_nullish.
Qed.

(** ** What the handler never does *)

Lemma runs_idle {A} env fp (m : M A) : (∀ w, (m w).2 = w) → runs env fp m.
Proof. intros H w. rewrite H. constructor. Qed.

Lemma on_AUTHORIZE_unreadable env payload e w :
  prop payload "cmd" = Throw e → on_AUTHORIZE env payload w = (Throw e, w).
Proof. intros H. unfold on_AUTHORIZE. apply E_bind_Throw. unfold lift. by rewrite H. Qed.

(** X14. Only an AUTHORIZE response reaches the token endpoint or the token
    store: for every text frame whose payload has another cmd, or none, the
    handler makes no HTTP request and writes nothing to local storage, so a
    cached token is never overwritten or cleared. *)
Theorem no_exchange_without_AUTHORIZE env data payload w :
  JSON_parse env data = Some payload →
  (∀ c, prop payload "cmd" = Ok c → (c === RPCCommand.AUTHORIZE) = false) →
  let w' := (onMessage env (Text data) w).2 in
  ∃ new, trace w' = trace w ++ new ∧
         fetches new = [] ∧ storage_writes new = [] ∧
         localStorage w' = localStorage w.
Proof.
  intros Hparse Hcmd w'. subst w'. unfold onMessage. rewrite Hparse.
  assert (Hr : runs env fp_no_exchange (dispatch env payload)).
  { unfold dispatch.
    repeat (apply runs_bind; [|intros _]); try runs_branch.
    apply runs_idle. intros w0.
    destruct (prop payload "cmd") as [c|e] eqn:Hc.
    - by rewrite (on_AUTHORIZE_skip env payload c w0 Hc (Hcmd c eq_refl)).
    - by rewrite (on_AUTHORIZE_unreadable env payload e w0 Hc). }
  pose proof (Hr w) as S.
  destruct (steps_frame _ _ _ _ S) as (_ & new & Hnew & Q).
  exists new. split; [done|].
  split; [by apply (quiet_fetches _ _ Q)|].
  split; [by apply (quiet_storage _ _ Q)|].
  by apply (steps_localStorage env fp_no_exchange).
Qed.

Lemma all_sends_within fp new :
  Forall (λ e, fp (effect_kind e) = true) new →
  Forall (λ frame, fp (KSend (cmd frame)) = true) (all_sends new).
Proof.
  induction 1 as [|e new He _ IH]; [constructor|].
  destruct e; simpl; try done. by constructor.
Qed.

(** X15. Whatever the frame, every frame the handler writes to the socket
    has a cmd, and it is never UNSUBSCRIBE: the subscriptions of a channel are
    not taken back when the channel changes. *)
Theorem handler_never_unsubscribes env event w :
  ∃ new, trace (onMessage env event w).2 = trace w ++ new ∧
         Forall (λ frame, ∃ c, cmd frame = Some c ∧ c ≠ RPCCommand.UNSUBSCRIBE)
                (all_sends new).
Proof.
  assert (Hr : runs env fp_handler (onMessage env event)).
  { destruct event as [data| | | |]; try apply runs_ret.
    simpl. destruct (JSON_parse env data); [|apply runs_throw].
    unfold dispatch. runs_chain. }
  destruct (steps_trace env _ _ _ (Hr w)) as (new & Hnew & Hall).
  exists new. split; [done|].
  eapply Forall_impl; [by apply all_sends_within|].
  intros frame. simpl. destruct (cmd frame) as [c|]; [|done].
  intros H. exists c. split; [done|]. by intros ->.
Qed.

(** ** Frames with one tag, in full *)

Section OneTag.
Variable env : Env.

Lemma onMessage_this event w : this (onMessage env event w).2 = this w.
Proof. eapply steps_this, runs_onMessage. Qed.

Lemma ready_event payload c data w :
  initialised w = true →
  JSON_parse env data = Some payload →
  prop payload "evt" = Ok (JStr RPCEvent.READY) →
  prop payload "cmd" = Ok c → no_command c = true →
  let n := uuid_v4 env (uuid_calls w) in
  ∃ w', onMessage env (Text data) w = (Ok tt, w') ∧
        trace w' = trace w ++
          SocketSend (if truthy_token (cached_token w)
                      then frame_AUTHENTICATE (default "" (cached_token w)) n
                      else frame_AUTHORIZE n) :: log_of payload c ∧
        uuid_calls w' = S (uuid_calls w) ∧ localStorage w' = localStorage w.
Proof.
  intros Hinit Hparse He Hc (C1 & C2 & C3 & C4)%no_command_inv n. subst n.
  destruct (initialised_inv w Hinit) as (ws & st & ts & Hs & Hst & Hts & Hkey).
  unfold cached_token, log_of. rewrite Hts.
  destruct (truthy_token (localStorage w !! TokenStore.key ts)) eqn:Htok,
    (includes_cmd c) eqn:Hinc.
  all: eexists; (split; [unfold_handler; rewrite Hparse; ev_all|]);
    (split; [by trace_of|]);
    by rewrite !uuid_calls_apply_action, !localStorage_apply_action.
Qed.

Lemma authorize_response payload e d code res data w :
  initialised w = true →
  JSON_parse env data = Some payload →
  prop payload "cmd" = Ok (JStr RPCCommand.AUTHORIZE) →
  prop payload "evt" = Ok e → no_event e = true →
  prop payload "data" = Ok d → prop d "code" = Ok code →
  fetch env (token_request code) = Some res →
  ∃ w', onMessage env (Text data) w = (Ok tt, w') ∧
        trace w' = trace w ++
          [HttpFetch (token_request code);
           StorageSetItem "discord_access_token" (access_token res);
           SocketSend (frame_AUTHENTICATE (access_token res)
                         (uuid_v4 env (uuid_calls w)));
           ConsoleLog payload] ∧
        uuid_calls w' = S (uuid_calls w) ∧
        localStorage w' = <["discord_access_token" := access_token res]> (localStorage w).
Proof.
  intros Hinit Hparse Hc He (E1 & E2 & E3 & E4 & E5 & E6)%no_event_inv Hd Hcode Hres.
  destruct (initialised_inv w Hinit) as (ws & st & ts & Hs & Hst & Hts & Hkey).
  eexists. split; [unfold_handler; rewrite Hparse; ev_all|].
  rewrite <-Hkey. split; [by trace_of|].
  by rewrite !uuid_calls_apply_action, !localStorage_apply_action.
Qed.

Lemma authenticate_response payload e d user data w :
  initialised w = true →
  JSON_parse env data = Some payload →
  prop payload "cmd" = Ok (JStr RPCCommand.AUTHENTICATE) →
  prop payload "evt" = Ok e → no_event e = true →
  prop payload "data" = Ok d → prop d "user" = Ok user →
  ∃ w', onMessage env (Text data) w = (Ok tt, w') ∧
        trace w' = trace w ++
          [SocketSend (frame_GET_SELECTED_VOICE_CHANNEL (uuid_v4 env (uuid_calls w)));
           SocketSend (frame_SUBSCRIBE_VOICE_CHANNEL_SELECT
                         (uuid_v4 env (S (uuid_calls w))));
           StoreAction (setMe user)] ∧
        uuid_calls w' = 2 + uuid_calls w ∧ localStorage w' = localStorage w.
Proof.
  intros Hinit Hparse Hc He (E1 & E2 & E3 & E4 & E5 & E6)%no_event_inv Hd Hu.
  destruct (initialised_inv w Hinit) as (ws & st & ts & Hs & Hst & Hts & Hkey).
  eexists. split; [unfold_handler; rewrite Hparse; ev_all|].
  split; [by trace_of|].
  by rewrite !uuid_calls_apply_action, !localStorage_apply_action.
Qed.

Lemma selected_response payload e d C L data w :
  initialised w = true →
  JSON_parse env data = Some payload →
  prop payload "cmd" = Ok (JStr RPCCommand.GET_SELECTED_VOICE_CHANNEL) →
  prop payload "evt" = Ok e → no_event e = true →
  prop payload "data" = Ok d → prop d "id" = Ok C → prop d "voice_states" = Ok L →
  let n i := uuid_v4 env (i + uuid_calls w) in
  ∃ w', onMessage env (Text data) w = (Ok tt, w') ∧
        trace w' = trace w ++
          [SocketSend (frame_channel_event RPCCommand.SUBSCRIBE C RPCEvent.SPEAKING_START (n 1));
           SocketSend (frame_channel_event RPCCommand.SUBSCRIBE C RPCEvent.SPEAKING_STOP (n 3));
           SocketSend (frame_channel_event RPCCommand.SUBSCRIBE C RPCEvent.VOICE_STATE_CREATE (n 5));
           SocketSend (frame_channel_event RPCCommand.SUBSCRIBE C RPCEvent.VOICE_STATE_DELETE (n 7));
           SocketSend (frame_channel_event RPCCommand.SUBSCRIBE C RPCEvent.VOICE_STATE_DELETE (n 9));
           StoreAction (setUsers L);
           StoreAction (setCurrentChannel C);
           ConsoleLog payload] ∧
        uuid_calls w' = 10 + uuid_calls w ∧ localStorage w' = localStorage w.
Proof.
  intros Hinit Hparse Hc He (E1 & E2 & E3 & E4 & E5 & E6)%no_event_inv Hd Hid HL n.
  subst n.
  destruct (initialised_inv w Hinit) as (ws & st & ts & Hs & Hst & Hts & Hkey).
  eexists. split.
  - unfold_handler. rewrite Hparse. unfold channelEvents. simpl forEach. ev_all.
  - split; [by trace_of|].
    by rewrite !uuid_calls_apply_action, !localStorage_apply_action.
Qed.

End OneTag.

(** ** Frames in sequence *)

Lemma initialised_this w w' : this w' = this w → initialised w' = initialised w.
Proof. unfold initialised. by intros ->. Qed.

Lemma init_connected env w ws :
  WebSocket_connect env "ws://127.0.0.1:6463/?v=1&client_id=207646673902501888"
    "https://streamkit.discord.com" = Some ws →
  let w' := (init env w).2 in
  initialised w' = true ∧ trace w' = trace w ∧ uuid_calls w' = uuid_calls w ∧
  localStorage w' = localStorage w.
Proof.
  intros H w'. subst w'. unfold init.
  change (WEBSOCKET_URL ++ "/?v=1&client_id=" ++ STREAM_KIT_APP_ID)%string
    with "ws://127.0.0.1:6463/?v=1&client_id=207646673902501888".
  change STREAMKIT_URL with "https://streamkit.discord.com".
  by rewrite H.
Qed.

Lemma cached_token_initialised w :
  initialised w = true → cached_token w = localStorage w !! "discord_access_token".
Proof.
  intros (ws & st & ts & Hs & Hst & Hts & Hkey)%initialised_inv.
  unfold cached_token. by rewrite Hts, Hkey.
Qed.


(** X17. The first-run handshake, frame by frame. From a new manager with
    empty storage and a peer that accepts the connection, [init] followed by
    a READY event, the AUTHORIZE response, the AUTHENTICATE acknowledgement
    and the GET_SELECTED_VOICE_CHANNEL response produces exactly this trace:
    AUTHORIZE; the code exchange, the token stored, AUTHENTICATE with it;
    the request for the selected channel and the subscription to channel
    changes, [setMe]; the five channel subscriptions, [setUsers],
    [setCurrentChannel]; with the log entries in between (none for the
    AUTHENTICATE acknowledgement). The nonces are the draws 0 to 3 and then
    every second one. The token is cached at the end. *)
Theorem first_run_handshake
    env ws t1 p1 c1 t2 p2 e2 d2 code token t3 p3 e3 d3 user t4 p4 e4 d4 C L :
  WebSocket_connect env "ws://127.0.0.1:6463/?v=1&client_id=207646673902501888"
    "https://streamkit.discord.com" = Some ws →
  JSON_parse env t1 = Some p1 →
  prop p1 "evt" = Ok (JStr RPCEvent.READY) →
  prop p1 "cmd" = Ok c1 → no_command c1 = true →
  JSON_parse env t2 = Some p2 →
  prop p2 "cmd" = Ok (JStr RPCCommand.AUTHORIZE) →
  prop p2 "evt" = Ok e2 → no_event e2 = true →
  prop p2 "data" = Ok d2 → prop d2 "code" = Ok code →
  fetch env (token_request code) = Some {| access_token := token |} →
  JSON_parse env t3 = Some p3 →
  prop p3 "cmd" = Ok (JStr RPCCommand.AUTHENTICATE) →
  prop p3 "evt" = Ok e3 → no_event e3 = true →
  prop p3 "data" = Ok d3 → prop d3 "user" = Ok user →
  JSON_parse env t4 = Some p4 →
  prop p4 "cmd" = Ok (JStr RPCCommand.GET_SELECTED_VOICE_CHANNEL) →
  prop p4 "evt" = Ok e4 → no_event e4 = true →
  prop p4 "data" = Ok d4 → prop d4 "id" = Ok C → prop d4 "voice_states" = Ok L →
  let w := run env [OpInit; OpOnMessage (Text t1); OpOnMessage (Text t2);
                    OpOnMessage (Text t3); OpOnMessage (Text t4)] new_World in
  let n := uuid_v4 env in
  trace w =
    SocketSend (frame_AUTHORIZE (n 0)) :: log_of p1 c1 ++
    [HttpFetch (token_request code);
     StorageSetItem "discord_access_token" token;
     SocketSend (frame_AUTHENTICATE token (n 1));
     ConsoleLog p2;
     SocketSend (frame_GET_SELECTED_VOICE_CHANNEL (n 2));
     SocketSend (frame_SUBSCRIBE_VOICE_CHANNEL_SELECT (n 3));
     StoreAction (setMe user);
     SocketSend (frame_channel_event RPCCommand.SUBSCRIBE C RPCEvent.SPEAKING_START (n 5));
     SocketSend (frame_channel_event RPCCommand.SUBSCRIBE C RPCEvent.SPEAKING_STOP (n 7));
     SocketSend (frame_channel_event RPCCommand.SUBSCRIBE C RPCEvent.VOICE_STATE_CREATE (n 9));
     SocketSend (frame_channel_event RPCCommand.SUBSCRIBE C RPCEvent.VOICE_STATE_DELETE (n 11));
     SocketSend (frame_channel_event RPCCommand.SUBSCRIBE C RPCEvent.VOICE_STATE_DELETE (n 13));
     StoreAction (setUsers L);
     StoreAction (setCurrentChannel C);
     ConsoleLog p4] ∧
  cached_token w = Some token.
Proof.
  intros Hconn P1 E1 C1 N1 P2 C2 E2 N2 D2 Hcode Hres P3 C3 E3 N3 D3 Hu
    P4 C4 E4 N4 D4 HC HL w n. subst w n.
  unfold run. cbn [fold_left exec].
  destruct (init_connected env new_World ws Hconn) as (I0 & T0 & U0 & L0).
  set (w0 := (init env new_World).2) in *.
  assert (Hstep : ∀ data wa wb, onMessage env (Text data) wa = (Ok tt, wb) →
            initialised wa = true → initialised wb = true).
  { intros data wa wb E Hi. rewrite <-Hi. apply initialised_this.
    pose proof (onMessage_this env (Text data) wa) as H. by rewrite E in H. }
  destruct (ready_event env p1 c1 t1 w0 I0 P1 E1 C1 N1) as (w1 & M1 & T1 & U1 & L1).
  rewrite M1. cbn [snd]. pose proof (Hstep _ _ _ M1 I0) as I1.
  destruct (authorize_response env p2 e2 d2 code _ t2 w1 I1 P2 C2 E2 N2 D2 Hcode Hres)
    as (w2 & M2 & T2 & U2 & L2).
  rewrite M2. cbn [snd]. pose proof (Hstep _ _ _ M2 I1) as I2.
  destruct (authenticate_response env p3 e3 d3 user t3 w2 I2 P3 C3 E3 N3 D3 Hu)
    as (w3 & M3 & T3 & U3 & L3).
  rewrite M3. cbn [snd]. pose proof (Hstep _ _ _ M3 I2) as I3.
  destruct (selected_response env p4 e4 d4 C L t4 w3 I3 P4 C4 E4 N4 D4 HC HL)
    as (w4 & M4 & T4 & U4 & L4).
  rewrite M4. cbn [snd]. pose proof (Hstep _ _ _ M4 I3) as I4.
  split.
  - rewrite T4, T3, T2, T1, T0, U3, U2, U1, U0.
    rewrite (cached_token_initialised _ I0), L0. simpl.
    by rewrite <-!app_assoc.
  - rewrite (cached_token_initialised _ I4), L4, L3, L2. simpl. apply lookup_insert_eq.
Qed.

(** ** The further properties on the sample session *)

Lemma unmatched_payload_is_only_logged_witness :
  onMessage sample_env2 (Text "pong") sample_world
  = (Ok tt,
     emit (ConsoleLog (JObj [("cmd", JStr "DISPATCH"); ("evt", JStr "PONG")]))
          sample_world) ∧
  onMessage sample_env2 (Text "subscribed") sample_world = (Ok tt, sample_world) ∧
  onMessage sample_env2 (Text "number") sample_world
  = (Ok tt, emit (ConsoleLog (JNum 5)) sample_world).
Proof.
  split; [|split].
  - apply (unmatched_payload_is_only_logged sample_env2 "pong"
             (JObj [("cmd", JStr "DISPATCH"); ("evt", JStr "PONG")])
             (JStr "DISPATCH") (JStr "PONG")); reflexivity.
  - apply (unmatched_payload_is_only_logged sample_env2 "subscribed"
             (JObj [("cmd", JStr "SUBSCRIBE"); ("evt", JNull);
                    ("data", JObj [("evt", JStr "SPEAKING_START")])])
             (JStr "SUBSCRIBE") JNull); reflexivity.
  - apply (unmatched_payload_is_only_logged sample_env2 "number" (JNum 5)
             JUndefined JUndefined); reflexivity.
Defined.

Lemma get_channel_response_rerequests_witness :
  ∃ w', onMessage sample_env2 (Text "channel") sample_world = (Ok tt, w') ∧
        trace w' = trace sample_world ++
          [SocketSend (frame_GET_SELECTED_VOICE_CHANNEL
                         (uuid_v4 sample_env2 (uuid_calls sample_world)));
           ConsoleLog (JObj [("cmd", JStr "GET_CHANNEL"); ("evt", JNull);
                             ("data", JObj [("id", JStr "42")])])] ∧
        localStorage w' = localStorage sample_world.
Proof.
  apply (get_channel_response_rerequests sample_env2 "channel" _ JNull); reflexivity.
Defined.

Lemma voice_state_delete_removes_user_witness :
  ∃ w', onMessage sample_env2 (Text "left") sample_world = (Ok tt, w') ∧
        trace w' = trace sample_world ++
          StoreAction (removeUser (JStr "7"))
          :: log_of (JObj [("cmd", JStr "DISPATCH"); ("evt", JStr "VOICE_STATE_DELETE");
                           ("data", JObj [("user", JObj [("id", JStr "7")])])])
                    (JStr "DISPATCH") ∧
        localStorage w' = localStorage sample_world ∧
        uuid_calls w' = uuid_calls sample_world.
Proof.
  apply (voice_state_delete_removes_user sample_env2 "left" _ (JStr "DISPATCH")
           (JObj [("user", JObj [("id", JStr "7")])]) (JObj [("id", JStr "7")]));
    reflexivity.
Defined.

Lemma voice_state_create_adds_user_witness :
  ∃ w', onMessage sample_env2 (Text "joined") sample_world = (Ok tt, w') ∧
        trace w' = trace sample_world ++
          StoreAction (addUser (JObj [("user", JObj [("id", JStr "8")])]))
          :: log_of (JObj [("cmd", JStr "DISPATCH"); ("evt", JStr "VOICE_STATE_CREATE");
                           ("data", JObj [("user", JObj [("id", JStr "8")])])])
                    (JStr "DISPATCH") ∧
        localStorage w' = localStorage sample_world ∧
        uuid_calls w' = uuid_calls sample_world.
Proof.
  apply (voice_state_create_adds_user sample_env2 "joined" _ (JStr "DISPATCH"));
    reflexivity.
Defined.

Lemma voice_channel_select_effects_witness :
  ∃ w', onMessage sample_env2 (Text "hung_up") sample_world = (Ok tt, w') ∧
        trace w' = trace sample_world ++
          [SocketSend (frame_GET_SELECTED_VOICE_CHANNEL
                         (uuid_v4 sample_env2 (uuid_calls sample_world)));
           StoreAction (setCurrentChannel JNull)] ++
          (if truthy JNull
           then [SocketSend (frame_GET_CHANNEL JNull
                               (uuid_v4 sample_env2 (S (uuid_calls sample_world))))]
           else []) ++
          log_of (JObj [("cmd", JStr "DISPATCH"); ("evt", JStr "VOICE_CHANNEL_SELECT");
                        ("data", JObj [("channel_id", JNull)])])
                 (JStr "DISPATCH").
Proof.
  apply (voice_channel_select_effects sample_env2 "hung_up" _ (JStr "DISPATCH")
           (JObj [("channel_id", JNull)]) JNull); reflexivity.
Defined.

Lemma payload_without_data_fails_first_witness :
  onMessage sample_env2 (Text "selected_nothing") sample_world
  = (Throw TypeError, sample_world).
Proof.
  apply (payload_without_data_fails_first sample_env2 "selected_nothing"
           (JObj [("cmd", JStr "GET_SELECTED_VOICE_CHANNEL"); ("data", JNull)])
           (JStr "GET_SELECTED_VOICE_CHANNEL") JUndefined JNull);
    try reflexivity.
  left. reflexivity.
Defined.

Lemma authenticate_without_data_witness :
  ∃ w', onMessage sample_env2 (Text "authenticate_nothing") sample_world
        = (Throw TypeError, w') ∧
        trace w' = trace sample_world ++
          [SocketSend (frame_GET_SELECTED_VOICE_CHANNEL
                         (uuid_v4 sample_env2 (uuid_calls sample_world)));
           SocketSend (frame_SUBSCRIBE_VOICE_CHANNEL_SELECT
                         (uuid_v4 sample_env2 (S (uuid_calls sample_world))))].
Proof.
  apply (authenticate_without_data sample_env2 "authenticate_nothing"
           (JObj [("cmd", JStr "AUTHENTICATE")]) JUndefined JUndefined);
    reflexivity.
Defined.

Lemma voice_channel_select_without_data_witness :
  ∃ w', onMessage sample_env2 (Text "select_nothing") sample_world
        = (Throw TypeError, w') ∧
        trace w' = trace sample_world ++
          [SocketSend (frame_GET_SELECTED_VOICE_CHANNEL
                         (uuid_v4 sample_env2 (uuid_calls sample_world)))].
Proof.
  apply (voice_channel_select_without_data sample_env2 "select_nothing"
           (JObj [("evt", JStr "VOICE_CHANNEL_SELECT")]) JUndefined JUndefined);
    reflexivity.
Defined.

Lemma token_store_round_trip_witness :
  let w' := (setAccessToken sample_env2 "tok1" sample_world).2 in
  accessToken w' = (Ok (Some "tok1"), w') ∧
  (∀ k, k ≠ TokenStore.key TokenStore.new →
        localStorage w' !! k = localStorage sample_world !! k) ∧
  ∀ token2, accessToken (setAccessToken sample_env2 token2 w').2
            = (Ok (Some token2), (setAccessToken sample_env2 token2 w').2).
Proof.
  apply (token_store_round_trip sample_env2 "tok1" sample_world TokenStore.new).
  reflexivity.
Defined.

Lemma channelEvents_frames_witness :
  let n i := uuid_v4 sample_env2 (i + uuid_calls sample_world) in
  ∃ w', channelEvents sample_env2 RPCCommand.UNSUBSCRIBE (JStr "42") sample_world
        = (Ok tt, w') ∧
        trace w' = trace sample_world ++
          [SocketSend (frame_channel_event RPCCommand.UNSUBSCRIBE (JStr "42")
                         RPCEvent.SPEAKING_START (n 1));
           SocketSend (frame_channel_event RPCCommand.UNSUBSCRIBE (JStr "42")
                         RPCEvent.SPEAKING_STOP (n 3));
           SocketSend (frame_channel_event RPCCommand.UNSUBSCRIBE (JStr "42")
                         RPCEvent.VOICE_STATE_CREATE (n 5));
           SocketSend (frame_channel_event RPCCommand.UNSUBSCRIBE (JStr "42")
                         RPCEvent.VOICE_STATE_DELETE (n 7));
           SocketSend (frame_channel_event RPCCommand.UNSUBSCRIBE (JStr "42")
                         RPCEvent.VOICE_STATE_DELETE (n 9))] ∧
        uuid_calls w' = 10 + uuid_calls sample_world ∧
        localStorage w' = localStorage sample_world ∧ this w' = this sample_world.
Proof.
  apply (channelEvents_frames sample_env2 RPCCommand.UNSUBSCRIBE (JStr "42")
           sample_world
           {| connectionUrl := "ws://127.0.0.1:6463/?v=1&client_id=207646673902501888";
              origin := "https://streamkit.discord.com" |}).
  reflexivity.
Defined.

Lemma channelEvents_without_socket_witness :
  ∃ w', channelEvents sample_env2 RPCCommand.SUBSCRIBE (JStr "42") new_World
        = (Ok tt, w') ∧
        trace w' = trace new_World ∧ uuid_calls w' = 5 + uuid_calls new_World ∧
        localStorage w' = localStorage new_World ∧ this w' = this new_World.
Proof.
  apply (channelEvents_without_socket sample_env2 RPCCommand.SUBSCRIBE (JStr "42")).
  reflexivity.
Defined.

Lemma unreadable_frame_fails_witness :
  onMessage sample_env2 (Text "{") sample_world = (Throw SyntaxError, sample_world) ∧
  onMessage sample_env2 (Text "null") sample_world = (Throw TypeError, sample_world).
Proof.
  split.
  - apply (unreadable_frame_fails sample_env2 "{" sample_world). reflexivity.
  - apply (unreadable_frame_fails sample_env2 "null" sample_world) with JNull;
      reflexivity.
Defined.

Lemma no_exchange_without_AUTHORIZE_witness :
  let w' := (onMessage sample_env2 (Text "speaking_start")
               (sample_world_token "tok0")).2 in
  ∃ new, trace w' = trace (sample_world_token "tok0") ++ new ∧
         fetches new = [] ∧ storage_writes new = [] ∧
         localStorage w' = localStorage (sample_world_token "tok0").
Proof.
  apply (no_exchange_without_AUTHORIZE sample_env2 "speaking_start"
           (JObj [("evt", JStr "SPEAKING_START");
                  ("data", JObj [("user_id", JStr "7")])])).
  - reflexivity.
  - intros c [= <-]. reflexivity.
Defined.


Lemma first_run_handshake_witness :
  let w := run sample_env
             [OpInit; OpOnMessage (Text "ready"); OpOnMessage (Text "authorize");
              OpOnMessage (Text "authenticate"); OpOnMessage (Text "selected")]
             new_World in
  all_sends (trace w)
  = [frame_AUTHORIZE (tally 0);
     frame_AUTHENTICATE "tok" (tally 1);
     frame_GET_SELECTED_VOICE_CHANNEL (tally 2);
     frame_SUBSCRIBE_VOICE_CHANNEL_SELECT (tally 3);
     frame_channel_event RPCCommand.SUBSCRIBE (JStr "42") RPCEvent.SPEAKING_START (tally 5);
     frame_channel_event RPCCommand.SUBSCRIBE (JStr "42") RPCEvent.SPEAKING_STOP (tally 7);
     frame_channel_event RPCCommand.SUBSCRIBE (JStr "42") RPCEvent.VOICE_STATE_CREATE (tally 9);
     frame_channel_event RPCCommand.SUBSCRIBE (JStr "42") RPCEvent.VOICE_STATE_DELETE (tally 11);
     frame_channel_event RPCCommand.SUBSCRIBE (JStr "42") RPCEvent.VOICE_STATE_DELETE (tally 13)] ∧
  store_calls (trace w)
  = [setMe (JObj [("id", JStr "7")]);
     setUsers (JArr [JObj [("nick", JStr "ann")]]);
     setCurrentChannel (JStr "42")] ∧
  cached_token w = Some "tok".
Proof.
  destruct (first_run_handshake sample_env
              {| connectionUrl := "ws://127.0.0.1:6463/?v=1&client_id=207646673902501888";
                 origin := "https://streamkit.discord.com" |}
              "ready" (JObj [("evt", JStr "READY")]) JUndefined
              "authorize"
              (JObj [("cmd", JStr "AUTHORIZE"); ("data", JObj [("code", JStr "c0de")])])
              JUndefined (JObj [("code", JStr "c0de")]) (JStr "c0de") "tok"
              "authenticate"
              (JObj [("cmd", JStr "AUTHENTICATE");
                     ("data", JObj [("user", JObj [("id", JStr "7")])])])
              JUndefined (JObj [("user", JObj [("id", JStr "7")])])
              (JObj [("id", JStr "7")])
              "selected"
              (JObj [("cmd", JStr "GET_SELECTED_VOICE_CHANNEL");
                     ("data", JObj [("id", JStr "42");
                                    ("voice_states",
                                     JArr [JObj [("nick", JStr "ann")]])])])
              JUndefined
              (JObj [("id", JStr "42");
                     ("voice_states", JArr [JObj [("nick", JStr "ann")]])])
              (JStr "42") (JArr [JObj [("nick", JStr "ann")]])
              eq_refl eq_refl eq_refl eq_refl eq_refl eq_refl eq_refl eq_refl
              eq_refl eq_refl eq_refl eq_refl eq_refl eq_refl eq_refl eq_refl
              eq_refl eq_refl eq_refl eq_refl eq_refl eq_refl eq_refl eq_refl eq_refl)
    as [Htrace Htoken].
  cbv zeta. rewrite Htrace. split; [reflexivity|]. split; [reflexivity|exact Htoken].
Defined.
